(** * gopro-gps-extractor: a shallow embedding of [gopro-gps-extractor.py]

    The program reads a timestamp [H:M:S], asks exiftool for the telemetry
    of a video as a JSON document, scans the document for the stream whose
    [TimeStamp] is the requested second, and writes five tags to an image.

    The file has three layers:
    - [Py]: the Python builtins the program relies on ([str.split], [int],
      [dict.get], f-string rendering), over byte strings and [Z];
    - the pure core: [Video_init], [loop_body], [main_loop], [select];
    - the orchestration [main], in a state-and-exception monad over a
      [World] holding the files, the log and the calls made to the writer. *)

From Stdlib Require Import ZArith List Bool Ascii String Lia.
From Stdlib Require Import Numbers.DecimalString Floats.SpecFloat.
From Stdlib Require Numbers.DecimalZ.
Import ListNotations.

Open Scope string_scope.
Open Scope Z_scope.

(* ================================================================= *)
(** ** Python builtins *)

Module Py.

(** The exceptions that occur in the program. An [AttributeError]
    carries its text, which the program logs; the text of the others is
    never looked at. [ToolError] stands for any exception raised by the
    ffmpeg or exiftool wrappers and by [json.loads]. *)
Inductive Exn : Type :=
| ValueError
| IndexError
| KeyError
| TypeError
| AttributeError (msg : string)
| OverflowError
| ToolError.

(** A Python expression either raises or yields a value. *)
Definition result (A : Type) : Type := (Exn + A)%type.
Definition ok {A} (a : A) : result A := inr a.
Definition raise {A} (e : Exn) : result A := inl e.

Definition bind {A B} (r : result A) (k : A -> result B) : result B :=
  match r with
  | inl e => inl e
  | inr a => k a
  end.

(** [s.split(sep)] for a one-character separator: never empty, one more
    piece than there are separators. *)
Fixpoint split (sep : ascii) (s : string) : list string :=
  match s with
  | EmptyString => [EmptyString]
  | String c s' =>
      if Ascii.eqb c sep then EmptyString :: split sep s'
      else match split sep s' with
           | [] => [String c EmptyString]
           | piece :: pieces => String c piece :: pieces
           end
  end.

(** [t[i]] on a list. Only non-negative indices occur in the program. *)
Definition getitem {A} (l : list A) (i : nat) : result A :=
  match nth_error l i with
  | Some a => ok a
  | None => raise IndexError
  end.

(** The white space [int] strips from an ASCII string: blank, and the
    control characters 9 to 13. *)
Definition isspace (c : ascii) : bool :=
  let n := nat_of_ascii c in
  (Nat.eqb n 32 || (Nat.leb 9 n && Nat.leb n 13))%bool.

Definition digit_of (c : ascii) : option Z :=
  let n := nat_of_ascii c in
  if (Nat.leb 48 n && Nat.leb n 57)%bool then Some (Z.of_nat (n - 48))
  else None.

Fixpoint lstrip (s : string) : string :=
  match s with
  | String c s' => if isspace c then lstrip s' else s
  | EmptyString => EmptyString
  end.

(** The digits after the first one: a digit extends the number, an
    underscore must be followed by a digit, anything else ends the
    number and is handed back. [None] is a misplaced underscore. *)
Fixpoint scan_digits (acc : Z) (s : string) : option (Z * string) :=
  match s with
  | EmptyString => Some (acc, EmptyString)
  | String c s' =>
      match digit_of c with
      | Some d => scan_digits (10 * acc + d) s'
      | None =>
          if Ascii.eqb c "_" then
            match s' with
            | String c' s'' =>
                match digit_of c' with
                | Some d => scan_digits (10 * acc + d) s''
                | None => None
                end
            | EmptyString => None
            end
          else Some (acc, s)
      end
  end.

(** [sys.get_int_max_str_digits()], as the interpreter starts: the most
    decimal digits [int] reads from a string and [str] writes for an
    integer. *)
Definition int_max_str_digits : Z := 4300.

(** The digits in a string, underscores, sign and blanks left out. *)
Fixpoint count_digits (s : string) : nat :=
  match s with
  | EmptyString => O
  | String c s' =>
      match digit_of c with
      | Some _ => S (count_digits s')
      | None => count_digits s'
      end
  end.

(** [int(s)] on an ASCII string, base 10: optional white space, an
    optional sign, digits with single underscores between them, optional
    white space, and no more than [int_max_str_digits] digits, leading
    zeros counted. *)
Definition int_of_str (s : string) : result Z :=
  let s1 := lstrip s in
  let '(neg, s2) :=
    match s1 with
    | String c r =>
        if Ascii.eqb c "-" then (true, r)
        else if Ascii.eqb c "+" then (false, r)
        else (false, s1)
    | EmptyString => (false, s1)
    end in
  match s2 with
  | EmptyString => raise ValueError
  | String c r =>
      match digit_of c with
      | None => raise ValueError
      | Some d =>
          match scan_digits d r with
          | None => raise ValueError
          | Some (n, rest) =>
              match lstrip rest with
              | EmptyString =>
                  if Z.of_nat (count_digits s) <=? int_max_str_digits
                  then ok (if neg then - n else n)
                  else raise ValueError
              | String _ _ => raise ValueError
              end
          end
      end
  end.

(** [int(f)] on a float: truncation toward zero; NaN and the infinities
    raise. A finite float is [(-1)^s * m * 2^e]; shifting the magnitude
    left by [e] (right when [e] is negative) drops the fraction. *)
Definition int_of_float (f : spec_float) : result Z :=
  match f with
  | S754_zero _ => ok 0
  | S754_infinity _ => raise OverflowError
  | S754_nan => raise ValueError
  | S754_finite s m e =>
      let mag := Z.shiftl (Z.pos m) e in
      ok (if s then - mag else mag)
  end.

#[local] Set Warnings "-register-all".

(** What [json.loads] produces. A [dict] is kept as the list of its
    items in iteration order; its keys are pairwise distinct. *)
Inductive value : Type :=
| VNone
| VBool (b : bool)
| VInt (n : Z)
| VFloat (f : spec_float)
| VStr (s : string)
| VList (l : list value)
| VDict (d : list (string * value)).

Definition isinstance_str (v : value) : bool :=
  match v with
  | VStr _ => true
  | _ => false
  end.

(** [type(v).__name__] *)
Definition type_name (v : value) : string :=
  match v with
  | VNone => "NoneType"
  | VBool _ => "bool"
  | VInt _ => "int"
  | VFloat _ => "float"
  | VStr _ => "str"
  | VList _ => "list"
  | VDict _ => "dict"
  end.

Fixpoint lookup (k : string) (d : list (string * value)) : option value :=
  match d with
  | [] => None
  | (k', v) :: d' => if String.eqb k k' then Some v else lookup k d'
  end.

(** The text of the [AttributeError] for a missing method. *)
Definition no_attribute (v : value) (method : string) : string :=
  "'" ++ type_name v ++ "' object has no attribute '" ++ method ++ "'".

(** [v.get(k)]: only a [dict] has the method; a missing key gives
    [None]. *)
Definition get (v : value) (k : string) : result value :=
  match v with
  | VDict d =>
      match lookup k d with
      | Some x => ok x
      | None => ok VNone
      end
  | _ => raise (AttributeError (no_attribute v "get"))
  end.

(** [int(x)] *)
Definition int (x : value) : result Z :=
  match x with
  | VInt n => ok n
  | VBool b => ok (if b then 1 else 0)
  | VFloat f => int_of_float f
  | VStr s => int_of_str s
  | VNone | VList _ | VDict _ => raise TypeError
  end.

(** [d.values()] *)
Definition values (v : value) : result (list value) :=
  match v with
  | VDict d => ok (map snd d)
  | _ => raise (AttributeError (no_attribute v "values"))
  end.

(** [documents[0]] *)
Definition getitem0 (v : value) : result value :=
  match v with
  | VList l => getitem l 0
  | VDict _ => raise KeyError
  | VStr (String c _) => ok (VStr (String c EmptyString))
  | VStr EmptyString => raise IndexError
  | _ => raise TypeError
  end.

(** The decimal writing of an integer *)
Definition str_of_int (n : Z) : string :=
  NilZero.string_of_int (Z.to_int n).

(** The number of digits of that writing *)
Definition decimal_digits (n : Z) : nat := count_digits (str_of_int n).

(** [str(n)], and [{n}] in an f-string, for an integer: a [ValueError]
    beyond [int_max_str_digits] digits. Every integer the loop formats
    comes from [json.loads] or from [int], so has no more digits than
    that; [timestamp_seconds], a sum of products, can have more. *)
Definition str_int (n : Z) : result string :=
  if Z.of_nat (decimal_digits n) <=? int_max_str_digits
  then ok (str_of_int n)
  else raise ValueError.

Section Format.
(** [repr] of floats, lists and dicts is left to the interpreter. *)
Variable repr : value -> string.

(** What [{x}] in an f-string inserts. *)
Definition format (x : value) : string :=
  match x with
  | VNone => "None"
  | VBool true => "True"
  | VBool false => "False"
  | VInt n => str_of_int n
  | VStr s => s
  | VFloat _ | VList _ | VDict _ => repr x
  end.
End Format.

End Py.

Import Py.

(* ================================================================= *)
(** ** [Video.__init__]: the timestamp in seconds *)

Record Video : Type := {
  self_video_file : string;
  self_timestamp : string;
  timestamp_seconds : Z
}.

Definition Video_init (video_file timestamp : string) : result Video :=
  let t := split ":" timestamp in
  bind (getitem t 0) (fun t0 =>
  bind (int_of_str t0) (fun h =>
  let hours := h * 60 * 60 in
  bind (getitem t 1) (fun t1 =>
  bind (int_of_str t1) (fun m =>
  let minutes := m * 60 in
  bind (getitem t 2) (fun t2 =>
  bind (int_of_str t2) (fun seconds =>
  ok {| self_video_file := video_file;
        self_timestamp := timestamp;
        timestamp_seconds := hours + minutes + seconds |})))))).

(* ================================================================= *)
(** ** The scan over the telemetry document *)

Inductive Level : Type := DEBUG | INFO | ERROR.

Definition LogRecord : Type := (Level * string)%type.

(** The body of a [try]: the records logged so far, and how it ended. *)
Definition Try (A : Type) : Type := (list LogRecord * result A)%type.

Definition try_ret {A} (a : A) : Try A := ([], ok a).

Definition try_bind {A B} (m : Try A) (k : A -> Try B) : Try B :=
  match m with
  | (l, inl e) => (l, inl e)
  | (l, inr a) => let '(l', r) := k a in ((l ++ l')%list, r)
  end.

Definition try_lift {A} (r : result A) : Try A := ([], r).

Definition try_log (lvl : Level) (msg : string) : Try unit := ([(lvl, msg)], ok tt).

Declare Scope try_scope.
Delimit Scope try_scope with try.
Notation "x <- m ;; k" := (try_bind m (fun x => k))
  (at level 61, m at next level, right associativity) : try_scope.
Notation "m ;; k" := (try_bind m (fun _ => k))
  (at level 61, right associativity) : try_scope.

(** How one turn of the [for] loop ends. *)
Inductive Flow : Type :=
| Continue
| Break (data : list string)
| Propagate (e : Exn).

(** What the loop leaves behind: [found_entry] with [data], or an
    exception that no handler caught. *)
Inductive Outcome : Type :=
| Found (data : list string)
| NotFound
| Raised (e : Exn).

Section Scan.

(** [repr] of the interpreter, for the floats, lists and dicts that end
    up in a directive. *)
Variable repr : value -> string.

(** [args.extract] and [obj.timestamp_seconds] *)
Variable extract : bool.
Variable target : Z.

(** The list literal assigned to [data]. *)
Definition data (value : value) : result (list string) :=
  bind (get value "GPSLatitude") (fun lat =>
  bind (get value "GPSLongitude") (fun lon =>
  bind (get value "GPSAltitude") (fun alt =>
  bind (get value "DeviceName") (fun name =>
  ok [ "-GPSLatitude*=" ++ format repr lat;
       "-GPSLongitude*=" ++ format repr lon;
       "-GPSAltitude*=" ++ format repr alt;
       "-model*=" ++ format repr name;
       "-make*=GoPro" ])))).

(** The statements inside [try:]. [Some data] is the [break], [None]
    the [continue] and the fall through the [if]. *)
Definition try_body (value : value) : Try (option (list string)) :=
  (if isinstance_str value then
     try_log DEBUG "This element is a string.  Skipping" ;;
     try_ret None
   else
     x <- try_lift (get value "TimeStamp") ;;
     t <- try_lift (int x) ;;
     try_log DEBUG ("Found timestamp " ++ str_of_int t) ;;
     if (extract || (t =? target))%bool then
       d <- try_lift (data value) ;;
       try_ret (Some d)
     else try_ret None)%try.

(** The [try] with its two handlers: an [AttributeError] is logged, a
    [TypeError] is passed over, anything else leaves the loop. *)
Definition loop_body (value : value) : list LogRecord * Flow :=
  match try_body value with
  | (l, inr (Some d)) => (l, Break d)
  | (l, inr None) => (l, Continue)
  | (l, inl (AttributeError msg)) => ((l ++ [(ERROR, msg)])%list, Continue)
  | (l, inl TypeError) => (l, Continue)
  | (l, inl e) => (l, Propagate e)
  end.

(** [for value in documents[0].values(): ...] *)
Fixpoint main_loop (vals : list value) : list LogRecord * Outcome :=
  match vals with
  | [] => ([], NotFound)
  | value :: rest =>
      match loop_body value with
      | (l, Continue) => let '(l', o) := main_loop rest in ((l ++ l')%list, o)
      | (l, Break d) => (l, Found d)
      | (l, Propagate e) => (l, Raised e)
      end
  end.

(** The engine's answer, without the log. *)
Definition select (vals : list value) : Outcome := snd (main_loop vals).

(** The integer read from a stream, as line 144 computes it. *)
Definition time_value (value : value) : result Z :=
  bind (get value "TimeStamp") int.

End Scan.

(* ================================================================= *)
(** ** The run: files, log and writer calls *)

(** What a run can change and what is observed of it afterwards. *)
Record World : Type := {
  files : list string;                 (* the paths that exist *)
  log : list LogRecord;                (* the records the logger let through *)
  exif_writes : list (string * string) (* [(file, directive)] given to exiftool, in order *)
}.

(** An ffmpeg invocation as the builder chain describes it. *)
Record Ffmpeg : Type := {
  input : string;
  ss : Z;
  t : option string;
  output : string;
  output_options : list (string * string)
}.

(** The collaborators of a run. *)
Record Env : Type := {
  (* [repr] of the interpreter on floats, lists and dicts *)
  repr : value -> string;
  (* the text of [ffmpeg.arguments] *)
  ffmpeg_arguments : Ffmpeg -> string;
  (* the [name] of the file [tempfile.NamedTemporaryFile()] creates *)
  NamedTemporaryFile : string;
  (* whether [ffmpeg.execute()] returns; when it does the output exists *)
  ffmpeg_succeeds : Ffmpeg -> bool;
  (* [json.loads] of what exiftool prints for a video, or what either raises *)
  exiftool_json : string -> result value;
  (* entering the [with exiftool.ExifTool(...)] of [update_file]: exiftool
     starts, or the wrapper raises *)
  exiftool_start : result unit;
  (* [et.execute('-P', i, file_name)] in the world it is called in: the
     wrapper raises, or exiftool answers, having rewritten the file or not *)
  exiftool_write : World -> string -> string -> result bool
}.

(** The arguments after [parser.parse_args()]. *)
Record Namespace : Type := {
  video_file : string;
  image_file : option string;
  timestamp : string;
  extract : bool;
  loglevel : Level
}.

Definition M (A : Type) : Type := World -> result A * World.

Definition ret {A} (a : A) : M A := fun w => (ok a, w).

Definition mbind {A B} (m : M A) (k : A -> M B) : M B :=
  fun w =>
    match m w with
    | (inl e, w') => (inl e, w')
    | (inr a, w') => k a w'
    end.

Definition lift {A} (r : result A) : M A := fun w => (r, w).

Declare Scope run_scope.
Delimit Scope run_scope with run.
Notation "x <- m ;; k" := (mbind m (fun x => k))
  (at level 61, m at next level, right associativity) : run_scope.
Notation "m ;; k" := (mbind m (fun _ => k))
  (at level 61, right associativity) : run_scope.

Definition add_file (p : string) (fs : list string) : list string :=
  if existsb (String.eqb p) fs then fs else p :: fs.

Definition remove_file (p : string) (fs : list string) : list string :=
  filter (fun q => negb (String.eqb p q)) fs.

Definition create (p : string) : M unit :=
  fun w => (ok tt, {| files := add_file p (files w); log := log w;
                      exif_writes := exif_writes w |}).

(** [temp_video_file.close()]: closing a [NamedTemporaryFile] deletes it. *)
Definition close (p : string) : M unit :=
  fun w => (ok tt, {| files := remove_file p (files w); log := log w;
                      exif_writes := exif_writes w |}).

(** The truth value of [args.image_file]: [None] and the empty string
    count as false. *)
Definition truthy (s : option string) : bool :=
  match s with
  | Some (String _ _) => true
  | Some EmptyString | None => false
  end.

Section Run.

Variable env : Env.
Variable args : Namespace.

(** The level [logging.basicConfig] is given. *)
Definition level : Level :=
  match loglevel args with
  | DEBUG => DEBUG
  | _ => INFO
  end.

Definition enabled (lvl : Level) : bool :=
  match level, lvl with
  | DEBUG, _ => true
  | _, DEBUG => false
  | _, _ => true
  end.

Definition emit (r : LogRecord) : M unit :=
  fun w =>
    (ok tt,
     if enabled (fst r)
     then {| files := files w; log := (log w ++ [r])%list;
             exif_writes := exif_writes w |}
     else w).

Fixpoint emit_all (l : list LogRecord) : M unit :=
  match l with
  | [] => ret tt
  | r :: l' => (emit r ;; emit_all l')%run
  end.

Definition info (msg : string) : M unit := emit (INFO, msg).
Definition debug (msg : string) : M unit := emit (DEBUG, msg).

(** [ffmpeg.execute()] *)
Definition execute (ffmpeg : Ffmpeg) : M unit :=
  if ffmpeg_succeeds env ffmpeg then create (output ffmpeg)
  else lift (raise ToolError).

(** [Video.extract_video]: returns the two attributes it sets,
    [temp_video_file] (by its name) and [temp_video_file_name]. *)
Definition extract_video (self : Video) : M (string * string) :=
  (info ("Extracting 1 second of video from " ++ self_video_file self
         ++ " starting at " ++ self_timestamp self) ;;
   let temp_video_file := NamedTemporaryFile env in
   create temp_video_file ;;
   let temp_video_file_name := temp_video_file ++ ".mp4" in
   let ffmpeg := {| input := self_video_file self;
                    ss := timestamp_seconds self;
                    t := Some "1";
                    output := temp_video_file_name;
                    output_options := [("c", "copy")] |} in
   debug ("ffmpeg arguments: " ++ ffmpeg_arguments env ffmpeg) ;;
   execute ffmpeg ;;
   ret (temp_video_file, temp_video_file_name))%run.

(** [Video.extract_image]: returns [image_output_name]. *)
Definition extract_image (self : Video) (video : string) : M string :=
  (info ("Extracting image from video " ++ video ++ " at timestamp "
         ++ self_timestamp self) ;;
   stem <- lift (getitem (split "." (self_video_file self)) 0) ;;
   seconds <- lift (str_int (timestamp_seconds self)) ;;
   let image_output_name := stem ++ "." ++ seconds ++ ".jpg" in
   let ffmpeg := {| input := video;
                    ss := timestamp_seconds self;
                    t := None;
                    output := image_output_name;
                    output_options := [("vframes", "1"); ("qscale", "3")] |} in
   debug ("ffmpeg arguments: " ++ ffmpeg_arguments env ffmpeg) ;;
   execute ffmpeg ;;
   info ("Image created as " ++ image_output_name) ;;
   ret image_output_name)%run.

(** [et.execute('-P', i, file_name)]: the call is handed to exiftool,
    which raises or answers. When exiftool rewrites the file it keeps the
    file as it was under the same name followed by [_original], unless a
    file of that name is there already. *)
Definition exif_write (file_name i : string) : M unit :=
  fun w =>
    let handed := (exif_writes w ++ [(file_name, i)])%list in
    match exiftool_write env w file_name i with
    | inl e =>
        (inl e, {| files := files w; log := log w; exif_writes := handed |})
    | inr rewritten =>
        (ok tt,
         {| files := if rewritten : bool
                     then add_file (file_name ++ "_original") (files w)
                     else files w;
            log := log w;
            exif_writes := handed |})
    end.

Fixpoint write_all (file_name : string) (data : list string) : M unit :=
  match data with
  | [] => ret tt
  | i :: data' => (exif_write file_name i ;; write_all file_name data')%run
  end.

(** [Video.update_file] *)
Definition update_file (file_name : string) (data : list string) : M unit :=
  (info ("Found match.  Updating image file " ++ file_name ++ " with GPS data") ;;
   lift (exiftool_start env) ;;
   write_all file_name data)%run.

(** The local variables of [main] when the loop starts. *)
Record Locals : Type := {
  obj : Video;
  temp_video_file : option string;
  video : string;
  f : string;
  streams : list value
}.

(** Lines 113 to 118: the video the metadata is read from, and the
    temporary file when there is one. *)
Definition choose_video (obj : Video) : M (option string * string) :=
  (if extract args
   then r <- extract_video obj ;; ret (Some (fst r), snd r)
   else ret (None, video_file args))%run.

(** Lines 120 to 126: the image the tags go to. *)
Definition choose_image (obj : Video) (video : string) : M string :=
  if truthy (image_file args)
  then ret (match image_file args with Some i => i | None => "" end)
  else extract_image obj video.

(** Lines 129 to 137: the stream values the loop goes through. *)
Definition read_streams (obj : Video) (video : string) : M (list value) :=
  (info ("Extracting metadata from video file " ++ video) ;;
   documents <- lift (exiftool_json env video) ;;
   seconds <- lift (str_int (timestamp_seconds obj)) ;;
   info ("Searching the metadata for timestamp "
         ++ seconds ++ " (" ++ seconds ++ ")") ;;
   doc <- lift (getitem0 documents) ;;
   lift (values doc))%run.

(** Lines 111 to 137: everything up to the loop header. *)
Definition before_loop : M Locals :=
  (obj <- lift (Video_init (video_file args) (timestamp args)) ;;
   tv <- choose_video obj ;;
   f <- choose_image obj (snd tv) ;;
   streams <- read_streams obj (snd tv) ;;
   ret {| obj := obj; temp_video_file := fst tv; video := snd tv; f := f;
          streams := streams |})%run.

(** What the run asks of the engine. *)
Definition scan (s : Locals) : list LogRecord * Outcome :=
  main_loop (repr env) (extract args) (timestamp_seconds (obj s)) (streams s).

(** Lines 161 to 169. *)
Definition after_loop (s : Locals) (found : option (list string)) : M unit :=
  ((match found with
    | Some data => update_file (f s) data
    | None => info ("No metadata found in " ++ video s)
    end) ;;
   if extract args then
     info ("Deleting temporary video file " ++ video s) ;;
     match temp_video_file s with
     | Some tmp => close tmp
     | None => lift (raise (AttributeError "'Video' object has no attribute 'temp_video_file'"))
     end
   else ret tt)%run.

(** Lines 137 to 169: the loop, whose log records reach the logger as
    they are made, and what follows it. An exception that left the loop
    ends the run there. *)
Definition from_loop (s : Locals) : M unit :=
  (let '(l, o) := scan s in
   emit_all l ;;
   match o with
   | Found data => after_loop s (Some data)
   | NotFound => after_loop s None
   | Raised e => lift (raise e)
   end)%run.

(** The world [main] yields is the one at the moment it returns or
    raises; what the interpreter does while it exits is not part of it. *)
Definition main : M unit := mbind before_loop from_loop.

End Run.

Definition empty_world : World := {| files := []; log := []; exif_writes := [] |}.

(* ================================================================= *)
(** ** The command line

    Lines 11 to 20 declare five options. What argparse does with the
    words of the command line before it has a text for each option
    (prefixes, [--opt=text], repeated options) is left to it: the model
    starts from the text found for each option, [None] for an option
    that was not given. *)

Record Options : Type := {
  opt_video_file : option string;
  opt_image_file : option string;
  opt_timestamp : option string;
  opt_extract : option string;
  opt_loglevel : option string
}.

(** [bool(s)] on a string, the [type] of [--extract] *)
Definition bool_of_str (s : string) : bool :=
  match s with
  | EmptyString => false
  | String _ _ => true
  end.

(** [parser.parse_args()]. [None] is [parser.error]: a required option
    is missing or the log level is not one of the choices, and the
    program exits. A default is taken as it is; a text goes through the
    option's [type]. *)
Definition parse_args (o : Options) : option Namespace :=
  match opt_video_file o, opt_timestamp o with
  | Some v, Some ts =>
      match
        match opt_loglevel o with
        | None => Some INFO
        | Some l =>
            if String.eqb l "DEBUG" then Some DEBUG
            else if String.eqb l "INFO" then Some INFO
            else None
        end
      with
      | Some lvl =>
          Some {| video_file := v;
                  image_file := opt_image_file o;
                  timestamp := ts;
                  extract := match opt_extract o with
                             | None => false
                             | Some e => bool_of_str e
                             end;
                  loglevel := lvl |}
      | None => None
      end
  | _, _ => None
  end.

(* ================================================================= *)
(** ** Vocabulary of the statements *)

(** The three ways a turn of the loop can end. *)
Definition skipped (repr : value -> string) (extract : bool) (target : Z)
    (v : value) : Prop :=
  snd (loop_body repr extract target v) = Continue.

Definition accepted (repr : value -> string) (extract : bool) (target : Z)
    (v : value) (d : list string) : Prop :=
  snd (loop_body repr extract target v) = Break d.

Definition aborts (repr : value -> string) (extract : bool) (target : Z)
    (v : value) (e : Exn) : Prop :=
  snd (loop_body repr extract target v) = Propagate e.

(** A step of the run keeps the relation [R] between the world before
    and the world after. *)
Definition respects (R : World -> World -> Prop) {A} (m : M A) : Prop :=
  forall w, R w (snd (m w)).

(** The writer is not called. *)
Definition same_writes (w w' : World) : Prop := exif_writes w' = exif_writes w.

(** A file that exists is still there. *)
Definition keeps_file (p : string) (w w' : World) : Prop :=
  In p (files w) -> In p (files w').


(** Every DEBUG record of the log was there before. *)
Definition no_new_debug (w w' : World) : Prop :=
  forall msg, In (DEBUG, msg) (log w') -> In (DEBUG, msg) (log w).

(** The number a row of decimal digits writes, after the digits read so
    far gave [acc]. *)
Fixpoint uint_value (acc : Z) (d : Decimal.uint) : Z :=
  match d with
  | Decimal.Nil => acc
  | Decimal.D0 d' => uint_value (10 * acc + 0) d'
  | Decimal.D1 d' => uint_value (10 * acc + 1) d'
  | Decimal.D2 d' => uint_value (10 * acc + 2) d'
  | Decimal.D3 d' => uint_value (10 * acc + 3) d'
  | Decimal.D4 d' => uint_value (10 * acc + 4) d'
  | Decimal.D5 d' => uint_value (10 * acc + 5) d'
  | Decimal.D6 d' => uint_value (10 * acc + 6) d'
  | Decimal.D7 d' => uint_value (10 * acc + 7) d'
  | Decimal.D8 d' => uint_value (10 * acc + 8) d'
  | Decimal.D9 d' => uint_value (10 * acc + 9) d'
  end.

(** The records logged at level ERROR. *)
Definition is_error (r : LogRecord) : bool :=
  match fst r with
  | ERROR => true
  | _ => false
  end.

(** The stream values that are neither a string nor a dict. *)
Definition is_anomaly (v : value) : bool :=
  match v with
  | VStr _ | VDict _ => false
  | _ => true
  end.

(** A string holds no occurrence of a character. *)
Fixpoint free_of (c : ascii) (s : string) : Prop :=
  match s with
  | EmptyString => True
  | String c' s' => c' <> c /\ free_of c s'
  end.

(* ================================================================= *)
(** ** Sample documents, collaborators and command lines *)

(** A stream as a Hero9 records it at second 42. *)
Definition hero9 : value :=
  VDict [("TimeStamp", VInt 42); ("GPSLatitude", VStr "51.5");
         ("GPSLongitude", VStr "-0.1"); ("GPSAltitude", VInt 10);
         ("DeviceName", VStr "Hero9")].

(** A stream with a time and a position but neither altitude nor device
    name. *)
Definition no_altitude : value :=
  VDict [("TimeStamp", VInt 42); ("GPSLatitude", VStr "51.5");
         ("GPSLongitude", VStr "-0.1")].

(** A stream whose [TimeStamp] is a date. *)
Definition dated : value :=
  VDict [("TimeStamp", VStr "2019:06:01 12:00:00"); ("DeviceName", VStr "Hero9")].

(** Collaborators for the examples: ffmpeg succeeds, exiftool finds one
    telemetry stream, at second 42, and rewrites a file whenever the
    file is there. *)
Definition studio : Env := {|
  repr := fun _ => "";
  ffmpeg_arguments := fun _ => "['ffmpeg']";
  NamedTemporaryFile := "/tmp/tmpk2v9x1";
  ffmpeg_succeeds := fun _ => true;
  exiftool_json := fun video =>
    ok (VList [VDict [("SourceFile", VStr video); ("Doc1", hero9)]]);
  exiftool_start := ok tt;
  exiftool_write := fun w file _ => ok (existsb (String.eqb file) (files w))
|}.

(** [-v GX010001.MP4 -i frame.jpg -t 00:01:00] *)
Definition at_one_minute : Namespace := {|
  video_file := "GX010001.MP4";
  image_file := Some "frame.jpg";
  timestamp := "00:01:00";
  extract := false;
  loglevel := INFO
|}.

(** The same collaborators on a video whose clip holds no telemetry. *)
Definition silent_studio : Env := {|
  repr := fun _ => "";
  ffmpeg_arguments := fun _ => "['ffmpeg']";
  NamedTemporaryFile := "/tmp/tmpk2v9x1";
  ffmpeg_succeeds := fun _ => true;
  exiftool_json := fun video => ok (VList [VDict [("SourceFile", VStr video)]]);
  exiftool_start := ok tt;
  exiftool_write := fun w file _ => ok (existsb (String.eqb file) (files w))
|}.



(** A directory that holds the image. *)
Definition with_frame : World :=
  {| files := ["frame.jpg"]; log := []; exif_writes := [] |}.

(** [-v GX010001.MP4 -i frame.jpg -t 00:00:42 -e 1] *)
Definition extract_at_42 : Namespace := {|
  video_file := "GX010001.MP4";
  image_file := Some "frame.jpg";
  timestamp := "00:00:42";
  extract := true;
  loglevel := INFO
|}.

(** [-v GX010001.MP4 -i frame.jpg -t 1:2], a timestamp of two pieces *)
Definition at_two_pieces : Namespace := {|
  video_file := "GX010001.MP4";
  image_file := Some "frame.jpg";
  timestamp := "1:2";
  extract := false;
  loglevel := INFO
|}.

(** [-v GX010001.MP4 -i frame.jpg -t 00:00:42] *)
Definition at_42 : Namespace := {|
  video_file := "GX010001.MP4";
  image_file := Some "frame.jpg";
  timestamp := "00:00:42";
  extract := false;
  loglevel := INFO
|}.

(** [-v ./clips/GX010001.MP4 -t 00:00:42 -e 1], without [-i] *)
Definition still_from_clip : Namespace := {|
  video_file := "./clips/GX010001.MP4";
  image_file := None;
  timestamp := "00:00:42";
  extract := true;
  loglevel := INFO
|}.

(** [-v GX010001.MP4 -t 00:00:42 -e False] *)
Definition extract_false : Options := {|
  opt_video_file := Some "GX010001.MP4";
  opt_image_file := None;
  opt_timestamp := Some "00:00:42";
  opt_extract := Some "False";
  opt_loglevel := None
|}.

(* ================================================================= *)
(** ** The builtins and the scan on small inputs *)

Example int_of_str_ex :
  map int_of_str ["1"; "+1"; "-1"; " 1 "; "1_0"; "_1"; "1_"; "1__0"; ""; "- 1"; "007"; "0x1"]
  = [inr 1; inr 1; inr (-1); inr 1; inr 10; inl ValueError; inl ValueError;
     inl ValueError; inl ValueError; inl ValueError; inr 7; inl ValueError].
Proof. reflexivity. Qed.

Example split_ex :
  split ":" "1:2:3:4" = ["1"; "2"; "3"; "4"] /\ split ":" "" = [""] /\ split ":" ":" = [""; ""].
Proof. repeat split. Qed.

Example str_of_int_ex : map str_of_int [0; 42; -7; 3723] = ["0"; "42"; "-7"; "3723"].
Proof. reflexivity. Qed.

Example select_ex1 :
  main_loop (fun _ => "") false 42 [VStr "v.mp4"; VInt 3; VDict []; hero9]
  = ([(DEBUG, "This element is a string.  Skipping");
      (ERROR, "'int' object has no attribute 'get'");
      (DEBUG, "Found timestamp 42")],
     Found ["-GPSLatitude*=51.5"; "-GPSLongitude*=-0.1"; "-GPSAltitude*=10";
            "-model*=Hero9"; "-make*=GoPro"]).
Proof. reflexivity. Qed.

Example select_ex2 :
  select (fun _ => "") false 60 [VStr "v.mp4"; hero9] = NotFound.
Proof. reflexivity. Qed.

(* ================================================================= *)
(** ** Facts about the builtins *)

Lemma split_not_nil (sep : ascii) (s : string) : split sep s <> [].
Proof.
  induction s as [|c s IH]; simpl; [discriminate|].
  destruct (Ascii.eqb c sep); [discriminate|].
  destruct (split sep s); [contradiction|discriminate].
Qed.

(** [int] on a string raises nothing but [ValueError]. *)
Lemma int_of_str_raises (s : string) (e : Exn) :
  int_of_str s = inl e -> e = ValueError.
Proof.
  unfold int_of_str, raise, ok.
  destruct (match lstrip s with
            | EmptyString => (false, lstrip s)
            | String c r =>
                if Ascii.eqb c "-" then (true, r)
                else if Ascii.eqb c "+" then (false, r) else (false, lstrip s)
            end) as [neg s2].
  destruct s2 as [|c r]; [congruence|].
  destruct (digit_of c); [|congruence].
  destruct (scan_digits z r) as [[n rest]|]; [|congruence].
  destruct (lstrip rest); [|congruence].
  destruct (Z.of_nat (count_digits s) <=? int_max_str_digits); congruence.
Qed.

(** [int] raises one of three exceptions, never an [AttributeError]. *)
Lemma int_raises (x : value) (e : Exn) :
  int x = inl e -> e = TypeError \/ e = ValueError \/ e = OverflowError.
Proof.
  destruct x as [| b | n | fl | s | l | d]; simpl; unfold raise, ok; intros H;
    try discriminate; try (injection H as <-; now auto).
  - destruct fl; simpl in H; unfold raise, ok in H; try discriminate;
      injection H as <-; auto.
  - apply int_of_str_raises in H. auto.
Qed.

(** [get] raises only on what is not a [dict]. *)
Lemma get_dict (d : list (string * value)) (k : string) :
  exists x, get (VDict d) k = ok x.
Proof. simpl. destruct (lookup k d); eauto. Qed.

Lemma get_raises (v : value) (k : string) (e : Exn) :
  get v k = inl e -> e = AttributeError (no_attribute v "get") /\
                     forall k', get v k' = inl e.
Proof.
  destruct v; simpl; unfold raise, ok; intros H;
    try (injection H as <-; split; [reflexivity | intros k'; reflexivity]).
  destruct (lookup k d); discriminate.
Qed.

Lemma get_ok_dict (v : value) (k : string) (x : value) :
  get v k = ok x -> exists d, v = VDict d.
Proof. destruct v; simpl; unfold raise, ok; try discriminate. eauto. Qed.

(* ================================================================= *)
(** ** Facts about the scan *)

Section ScanFacts.

Variable repr : value -> string.
Variable extract : bool.
Variable target : Z.

Notation "'body'" := (loop_body repr extract target).
Notation "'sel'" := (select repr extract target).

Notation "'skipped'" := (skipped repr extract target).
Notation "'accepted'" := (accepted repr extract target).
Notation "'aborts'" := (aborts repr extract target).

Lemma data_dict (d : list (string * value)) :
  exists lat lon alt name,
    get (VDict d) "GPSLatitude" = ok lat /\
    get (VDict d) "GPSLongitude" = ok lon /\
    get (VDict d) "GPSAltitude" = ok alt /\
    get (VDict d) "DeviceName" = ok name /\
    data repr (VDict d) =
      ok [ "-GPSLatitude*=" ++ format repr lat;
           "-GPSLongitude*=" ++ format repr lon;
           "-GPSAltitude*=" ++ format repr alt;
           "-model*=" ++ format repr name;
           "-make*=GoPro" ].
Proof.
  destruct (get_dict d "GPSLatitude") as [lat Hlat].
  destruct (get_dict d "GPSLongitude") as [lon Hlon].
  destruct (get_dict d "GPSAltitude") as [alt Halt].
  destruct (get_dict d "DeviceName") as [name Hname].
  exists lat, lon, alt, name. unfold data.
  rewrite Hlat, Hlon, Halt, Hname. simpl. auto.
Qed.

(** One turn of the loop, by the shape of the stream value. *)
Lemma loop_body_str (s : string) :
  body (VStr s) = ([(DEBUG, "This element is a string.  Skipping")], Continue).
Proof. reflexivity. Qed.

Lemma loop_body_not_dict (v : value) (e : Exn) :
  isinstance_str v = false -> get v "TimeStamp" = inl e ->
  body v = ([(ERROR, no_attribute v "get")], Continue).
Proof.
  intros Hs Hg. destruct (get_raises _ _ _ Hg) as [-> _].
  unfold loop_body, try_body. rewrite Hs, Hg. reflexivity.
Qed.

Lemma loop_body_no_int (v x : value) (e : Exn) :
  isinstance_str v = false -> get v "TimeStamp" = ok x -> int x = inl e ->
  body v = ([], match e with TypeError => Continue | _ => Propagate e end).
Proof.
  intros Hs Hg Hi. unfold loop_body, try_body. rewrite Hs, Hg.
  unfold try_lift, try_bind, ok. rewrite Hi.
  destruct (int_raises _ _ Hi) as [-> | [-> | ->]]; reflexivity.
Qed.

Lemma loop_body_int (v x : value) (t : Z) :
  isinstance_str v = false -> get v "TimeStamp" = ok x -> int x = ok t ->
  exists d, data repr v = ok d /\
    body v =
      ([(DEBUG, "Found timestamp " ++ str_of_int t)],
       if (extract || (t =? target))%bool then Break d else Continue).
Proof.
  intros Hs Hg Hi. destruct (get_ok_dict _ _ _ Hg) as [dct ->].
  destruct (data_dict dct) as (lat & lon & alt & name & _ & _ & _ & _ & Hd).
  eexists. split; [exact Hd|].
  unfold loop_body, try_body. rewrite Hs, Hg.
  unfold try_lift, try_bind, try_log, try_ret, ok in *. rewrite Hi.
  destruct (extract || (t =? target))%bool; [rewrite Hd|]; reflexivity.
Qed.

(** The selection follows the first turn that does not continue. *)
Lemma select_cons (v : value) (rest : list value) :
  sel (v :: rest) =
    match snd (body v) with
    | Continue => sel rest
    | Break d => Found d
    | Propagate e => Raised e
    end.
Proof.
  unfold select. simpl. destruct (body v) as [l fl]. simpl.
  destruct fl; [destruct (main_loop repr extract target rest)|..]; reflexivity.
Qed.

Lemma select_app_skipped (pre rest : list value) :
  Forall skipped pre -> sel (pre ++ rest) = sel rest.
Proof.
  induction 1 as [|v pre Hv _ IH]; [reflexivity|].
  rewrite <- app_comm_cons, select_cons. unfold skipped in Hv. now rewrite Hv.
Qed.

(** Whatever ends the scan early sits behind streams that were all
    passed over. *)
Lemma select_found_inv (vals : list value) (d : list string) :
  sel vals = Found d ->
  exists pre v post,
    vals = (pre ++ v :: post)%list /\ Forall skipped pre /\ accepted v d.
Proof.
  induction vals as [|v vals IH]; [discriminate|].
  rewrite select_cons. destruct (snd (body v)) eqn:Hv.
  - intros H. destruct (IH H) as (pre & v' & post & -> & Hpre & Hacc).
    exists (v :: pre), v', post. repeat split; auto.
  - intros [= <-]. exists [], v, vals. repeat split; auto.
  - discriminate.
Qed.

Lemma select_raised_inv (vals : list value) (e : Exn) :
  sel vals = Raised e ->
  exists pre v post,
    vals = (pre ++ v :: post)%list /\ Forall skipped pre /\ aborts v e.
Proof.
  induction vals as [|v vals IH]; [discriminate|].
  rewrite select_cons. destruct (snd (body v)) eqn:Hv.
  - intros H. destruct (IH H) as (pre & v' & post & -> & Hpre & Hab).
    exists (v :: pre), v', post. repeat split; auto.
  - discriminate.
  - intros [= <-]. exists [], v, vals. repeat split; auto.
Qed.

Lemma select_notfound_iff (vals : list value) :
  sel vals = NotFound <-> Forall skipped vals.
Proof.
  split.
  - induction vals as [|v vals IH]; [constructor|].
    rewrite select_cons. destruct (snd (body v)) eqn:Hv; try discriminate.
    intros H. constructor; auto.
  - intros H. rewrite <- (app_nil_r vals). now rewrite select_app_skipped.
Qed.

(** A stream is accepted exactly when it is a [dict] whose [TimeStamp]
    reads as an integer that passes the test of line 146. *)
Lemma accepted_iff (v : value) (d : list string) :
  accepted v d <->
  exists t, time_value v = ok t /\ (extract || (t =? target))%bool = true /\
            data repr v = ok d.
Proof.
  unfold accepted, time_value. split.
  - destruct (isinstance_str v) eqn:Hs.
    { destruct v; discriminate. }
    destruct (get v "TimeStamp") as [e|x] eqn:Hg.
    { rewrite (loop_body_not_dict _ _ Hs Hg). discriminate. }
    destruct (int x) as [e|t] eqn:Hi.
    { rewrite (loop_body_no_int _ _ _ Hs Hg Hi). simpl. destruct e; discriminate. }
    destruct (loop_body_int _ _ _ Hs Hg Hi) as (d' & Hd & ->). simpl.
    destruct (extract || (t =? target))%bool eqn:Ht; [|discriminate].
    intros [= <-]. exists t. auto.
  - intros (t & Ht & Hc & Hd).
    destruct (get v "TimeStamp") as [e|x] eqn:Hg; [discriminate|].
    simpl in Ht. destruct (get_ok_dict _ _ _ Hg) as [dct ->].
    destruct (loop_body_int (VDict dct) x t eq_refl Hg Ht) as (d' & Hd' & ->).
    simpl. rewrite Hc. unfold ok in *. congruence.
Qed.

(** A stream makes the run fail exactly when it is a [dict] whose
    [TimeStamp] makes [int] raise something other than a [TypeError]. *)
Lemma aborts_iff (v : value) (e : Exn) :
  aborts v e <-> time_value v = inl e /\ (e = ValueError \/ e = OverflowError).
Proof.
  unfold aborts, time_value. split.
  - destruct (isinstance_str v) eqn:Hs.
    { destruct v; discriminate. }
    destruct (get v "TimeStamp") as [e'|x] eqn:Hg.
    { rewrite (loop_body_not_dict _ _ Hs Hg). discriminate. }
    destruct (int x) as [e'|t] eqn:Hi.
    + rewrite (loop_body_no_int _ _ _ Hs Hg Hi). simpl.
      destruct (int_raises _ _ Hi) as [-> | [-> | ->]];
        try discriminate; intros [= <-]; auto.
    + destruct (loop_body_int _ _ _ Hs Hg Hi) as (d' & Hd & ->). simpl.
      destruct (extract || (t =? target))%bool; discriminate.
  - intros [Ht He].
    destruct (get v "TimeStamp") as [e'|x] eqn:Hg.
    { simpl in Ht. injection Ht as ->.
      destruct (get_raises _ _ _ Hg) as [-> _]. destruct He; discriminate. }
    simpl in Ht. destruct (get_ok_dict _ _ _ Hg) as [dct ->].
    rewrite (loop_body_no_int (VDict dct) x e eq_refl Hg Ht). simpl.
    destruct He as [-> | ->]; reflexivity.
Qed.

(** A stream is passed over when it is a string, when it has no [get],
    when [int] raises a [TypeError] on its [TimeStamp], or when the
    integer fails the test of line 146. *)
Lemma skipped_iff (v : value) :
  skipped v <->
  isinstance_str v = true \/
  (exists m, time_value v = inl (AttributeError m)) \/
  time_value v = inl TypeError \/
  (exists t, time_value v = ok t /\ extract = false /\ t <> target).
Proof.
  unfold skipped, time_value.
  destruct (isinstance_str v) eqn:Hs.
  { destruct v; try discriminate. rewrite loop_body_str. simpl. tauto. }
  destruct (get v "TimeStamp") as [e|x] eqn:Hg.
  { rewrite (loop_body_not_dict _ _ Hs Hg). simpl.
    destruct (get_raises _ _ _ Hg) as [-> _]. split; eauto. }
  simpl. destruct (int x) as [e|t] eqn:Hi.
  - rewrite (loop_body_no_int _ _ _ Hs Hg Hi). simpl.
    destruct (int_raises _ _ Hi) as [-> | [-> | ->]].
    + split; auto.
    + split; [discriminate|].
      intros [H | [[m H] | [H | (t & H & _)]]]; discriminate.
    + split; [discriminate|].
      intros [H | [[m H] | [H | (t & H & _)]]]; discriminate.
  - destruct (loop_body_int _ _ _ Hs Hg Hi) as (d' & Hd & ->). simpl.
    destruct extract; simpl.
    + split; [discriminate|].
      intros [H | [[m H] | [H | (t' & _ & H & _)]]]; discriminate.
    + destruct (Z.eqb_spec t target) as [->|Hne].
      * split; [discriminate|].
        intros [H | [[m H] | [H | (t' & [= ->] & _ & H)]]];
          try discriminate. contradiction.
      * split; [|reflexivity]. intros _. right. right. right. exists t. auto.
Qed.

End ScanFacts.

(* ================================================================= *)
(** ** The timestamp *)

(** [Video.__init__] returns exactly when the timestamp has three leading
    pieces that [int] accepts; what follows the third piece is never
    looked at. *)
Lemma Video_init_ok_iff (video_file timestamp : string) (v : Video) :
  Video_init video_file timestamp = ok v <->
  exists a b c rest h m s,
    split ":" timestamp = a :: b :: c :: rest /\
    int_of_str a = ok h /\ int_of_str b = ok m /\ int_of_str c = ok s /\
    v = {| self_video_file := video_file;
           self_timestamp := timestamp;
           timestamp_seconds := h * 60 * 60 + m * 60 + s |}.
Proof.
  unfold Video_init, getitem, bind, ok, raise.
  destruct (split ":" timestamp) as [|a [|b [|c rest]]]; simpl.
  - split; [discriminate|]. intros (? & ? & ? & ? & ? & ? & ? & H & _); discriminate.
  - destruct (int_of_str a); (split; [discriminate|]);
      intros (? & ? & ? & ? & ? & ? & ? & H & _); discriminate.
  - destruct (int_of_str a); [|destruct (int_of_str b)]; (split; [discriminate|]);
      intros (? & ? & ? & ? & ? & ? & ? & H & _); discriminate.
  - destruct (int_of_str a) as [e1|h] eqn:Ha;
      [|destruct (int_of_str b) as [e2|m] eqn:Hb;
        [|destruct (int_of_str c) as [e3|s] eqn:Hc]].
    + split; [discriminate|].
      intros (? & ? & ? & ? & ? & ? & ? & [= <- <- <- <-] & H & _). congruence.
    + split; [discriminate|].
      intros (? & ? & ? & ? & ? & ? & ? & [= <- <- <- <-] & _ & H & _). congruence.
    + split; [discriminate|].
      intros (? & ? & ? & ? & ? & ? & ? & [= <- <- <- <-] & _ & _ & H & _). congruence.
    + split.
      * intros [= <-]. exists a, b, c, rest, h, m, s. auto.
      * intros (? & ? & ? & ? & h' & m' & s' & [= <- <- <- <-] & H1 & H2 & H3 & ->).
        rewrite Ha in H1. rewrite Hb in H2. rewrite Hc in H3.
        injection H1 as <-. injection H2 as <-. injection H3 as <-. reflexivity.
Qed.

(** The two ways it fails. *)
Lemma Video_init_raises (video_file timestamp : string) (e : Exn) :
  Video_init video_file timestamp = inl e -> e = ValueError \/ e = IndexError.
Proof.
  unfold Video_init, getitem, bind, ok, raise.
  destruct (split ":" timestamp) as [|a [|b [|c rest]]]; simpl.
  - intros [= <-]; auto.
  - destruct (int_of_str a) eqn:Ha; intros [= <-]; auto.
    left. eapply int_of_str_raises; eauto.
  - destruct (int_of_str a) eqn:Ha; [intros [= <-]; left; eapply int_of_str_raises; eauto|].
    destruct (int_of_str b) eqn:Hb; intros [= <-]; auto.
    left. eapply int_of_str_raises; eauto.
  - destruct (int_of_str a) eqn:Ha; [intros [= <-]; left; eapply int_of_str_raises; eauto|].
    destruct (int_of_str b) eqn:Hb; [intros [= <-]; left; eapply int_of_str_raises; eauto|].
    destruct (int_of_str c) eqn:Hc; [intros [= <-]; left; eapply int_of_str_raises; eauto|].
    discriminate.
Qed.

(** C3, as the spec has it, fails on the code: a timestamp of four pieces
    is accepted, the fourth piece ignored, and so is a negative hour. *)
Lemma Video_init_four_pieces_and_negative_accepted :
  (List.length (split ":" "1:2:3:4") = 4%nat /\
   exists v, Video_init "GX010001.MP4" "1:2:3:4" = ok v /\ timestamp_seconds v = 3723) /\
  (int_of_str "-1" = ok (-1) /\
   exists v, Video_init "GX010001.MP4" "-1:0:30" = ok v /\ timestamp_seconds v = -3570).
Proof.
  split; (split; [reflexivity|]); eexists; split; reflexivity.
Qed.

(** C3 (amended): parsing the timestamp fails, with a [ValueError] or an
    [IndexError], if and only if the input has fewer than three
    colon-separated pieces or one of its first three pieces is not an
    integer literal (a sign is allowed); pieces after the third are
    ignored. When it fails there is no [Video] at all. *)
Theorem Video_init_fails_iff (video_file timestamp : string) :
  ((exists e, Video_init video_file timestamp = inl e) <->
   (List.length (split ":" timestamp) < 3)%nat \/
   (exists piece, In piece (firstn 3 (split ":" timestamp)) /\
                  int_of_str piece = inl ValueError)) /\
  (forall e, Video_init video_file timestamp = inl e ->
             (e = ValueError \/ e = IndexError) /\
             forall v, Video_init video_file timestamp <> ok v).
Proof.
  split.
  - split.
    + intros [e He].
      destruct (split ":" timestamp) as [|a [|b [|c rest]]] eqn:Hsp;
        try (left; simpl; lia).
      right. simpl.
      destruct (int_of_str a) as [e1|h] eqn:Ha.
      { exists a. rewrite (int_of_str_raises _ _ Ha) in Ha. auto. }
      destruct (int_of_str b) as [e2|m] eqn:Hb.
      { exists b. rewrite (int_of_str_raises _ _ Hb) in Hb. auto. }
      destruct (int_of_str c) as [e3|s] eqn:Hc.
      { exists c. rewrite (int_of_str_raises _ _ Hc) in Hc. auto. }
      exfalso.
      assert (H : Video_init video_file timestamp =
                  ok {| self_video_file := video_file;
                        self_timestamp := timestamp;
                        timestamp_seconds := h * 60 * 60 + m * 60 + s |}).
      { apply Video_init_ok_iff. exists a, b, c, rest, h, m, s. auto. }
      unfold ok in H. congruence.
    + intros H. destruct (Video_init video_file timestamp) as [e|v] eqn:Hv; [eauto|].
      exfalso. apply Video_init_ok_iff in Hv.
      destruct Hv as (a & b & c & rest & h & m & s & Hsp & Ha & Hb & Hc & _).
      rewrite Hsp in H. simpl in H. unfold ok in *.
      destruct H as [H | (piece & [<- | [<- | [<- | []]]] & Hp)];
        [lia | congruence ..].
  - intros e He. split; [eapply Video_init_raises; eauto|].
    intros v Hv. unfold ok in Hv. congruence.
Qed.

(* ================================================================= *)
(** ** What the scan returns *)

(** C8: a document whose stream values are all plain strings gives
    [NotFound], whatever the target offset and whether or not any stream
    would do. *)
Theorem select_only_strings
    (repr : value -> string) (extract : bool) (target : Z) (vals : list value) :
  Forall (fun v => isinstance_str v = true) vals ->
  select repr extract target vals = NotFound.
Proof.
  intros H. apply select_notfound_iff.
  induction H as [|v vals Hv _ IH]; constructor; auto.
  apply skipped_iff. auto.
Qed.

Lemma select_only_strings_witness :
  select (fun _ => "") true 42 [VStr "GX010001.MP4"; VStr "ExifTool 12.40"] = NotFound.
Proof.
  apply (select_only_strings (fun _ => "") true 42
           [VStr "GX010001.MP4"; VStr "ExifTool 12.40"]).
  repeat constructor.
Defined.

(** C4: whenever the scan accepts a stream, [data] holds exactly five
    directives in the order latitude, longitude, altitude, model, make,
    and the make directive is the constant [-make*=GoPro] whatever the
    stream contains. *)
Theorem found_data_five_directives
    (repr : value -> string) (extract : bool) (target : Z)
    (vals : list value) (d : list string) :
  select repr extract target vals = Found d ->
  exists v lat lon alt name,
    In v vals /\
    get v "GPSLatitude" = ok lat /\ get v "GPSLongitude" = ok lon /\
    get v "GPSAltitude" = ok alt /\ get v "DeviceName" = ok name /\
    d = [ "-GPSLatitude*=" ++ format repr lat;
          "-GPSLongitude*=" ++ format repr lon;
          "-GPSAltitude*=" ++ format repr alt;
          "-model*=" ++ format repr name;
          "-make*=GoPro" ] /\
    List.length d = 5%nat /\ nth 4 d "" = "-make*=GoPro".
Proof.
  intros H.
  destruct (select_found_inv _ _ _ _ _ H) as (pre & v & post & -> & _ & Hacc).
  apply accepted_iff in Hacc. destruct Hacc as (t & Ht & _ & Hd).
  unfold time_value in Ht.
  destruct (get v "TimeStamp") as [e|x] eqn:Hg; [discriminate|].
  destruct (get_ok_dict _ _ _ Hg) as [dct ->].
  destruct (data_dict repr dct) as (lat & lon & alt & name & H1 & H2 & H3 & H4 & Hd').
  exists (VDict dct), lat, lon, alt, name.
  rewrite Hd' in Hd. injection Hd as <-.
  repeat split; auto. apply in_elt.
Qed.

Lemma found_data_five_directives_witness :
  exists v lat lon alt name,
    In v [VStr "GX010001.MP4"; hero9] /\
    get v "GPSLatitude" = ok lat /\ get v "GPSLongitude" = ok lon /\
    get v "GPSAltitude" = ok alt /\ get v "DeviceName" = ok name /\
    [ "-GPSLatitude*=51.5"; "-GPSLongitude*=-0.1"; "-GPSAltitude*=10";
      "-model*=Hero9"; "-make*=GoPro" ] =
    [ "-GPSLatitude*=" ++ format (fun _ => "") lat;
      "-GPSLongitude*=" ++ format (fun _ => "") lon;
      "-GPSAltitude*=" ++ format (fun _ => "") alt;
      "-model*=" ++ format (fun _ => "") name;
      "-make*=GoPro" ] /\
    List.length [ "-GPSLatitude*=51.5"; "-GPSLongitude*=-0.1"; "-GPSAltitude*=10";
             "-model*=Hero9"; "-make*=GoPro" ] = 5%nat /\
    nth 4 [ "-GPSLatitude*=51.5"; "-GPSLongitude*=-0.1"; "-GPSAltitude*=10";
            "-model*=Hero9"; "-make*=GoPro" ] "" = "-make*=GoPro".
Proof.
  apply (found_data_five_directives (fun _ => "") false 42
           [VStr "GX010001.MP4"; hero9]).
  reflexivity.
Defined.



(* ================================================================= *)
(** ** Streams whose [TimeStamp] is text

    exiftool prints a tag that is not a number as a JSON string. On such
    a [TimeStamp] [int] raises a [ValueError]; the loop has handlers for
    [AttributeError] and [TypeError] only, so the exception leaves the
    loop and ends the run. *)

(** A [ValueError] or [OverflowError] in one stream ends the scan,
    whatever follows and whatever the mode. *)
Lemma select_aborts
    (repr : value -> string) (extract : bool) (target : Z)
    (pre post : list value) (v : value) (e : Exn) :
  Forall (skipped repr extract target) pre ->
  time_value v = inl e -> e = ValueError \/ e = OverflowError ->
  select repr extract target (pre ++ v :: post) = Raised e.
Proof.
  intros Hpre Ht He. rewrite select_app_skipped by assumption.
  rewrite select_cons.
  assert (H : aborts repr extract target v e) by (apply aborts_iff; auto).
  unfold aborts in H. now rewrite H.
Qed.

(** C1 on the code: the third stream is a bundle whose time value is
    exactly the target 42 and no stream before it has that time value,
    yet the scan does not return it: the date in the second stream raises
    a [ValueError] that nothing catches. *)
Theorem select_exact_raises_before_match (repr : value -> string) :
  time_value hero9 = ok 42 /\
  time_value (VStr "GX010001.MP4") <> ok 42 /\ time_value dated <> ok 42 /\
  select repr false 42 [VStr "GX010001.MP4"; dated; hero9] = Raised ValueError /\
  select repr false 42 [VStr "GX010001.MP4"; hero9] =
    Found [ "-GPSLatitude*=51.5"; "-GPSLongitude*=-0.1"; "-GPSAltitude*=10";
            "-model*=Hero9"; "-make*=GoPro" ].
Proof. repeat split; discriminate. Qed.

(** C2 on the code: a bundle without [TimeStamp] is passed over silently
    and the bundle after it is found, but a bundle whose [TimeStamp] is
    text that is not an integer is not passed over: the [ValueError] ends
    the scan and the valid bundle after it is never reached. *)
Theorem select_text_timestamp_not_skipped (repr : value -> string) :
  main_loop repr false 42 [VDict [("DeviceName", VStr "Hero9")]; hero9] =
    ([(DEBUG, "Found timestamp 42")],
     Found [ "-GPSLatitude*=51.5"; "-GPSLongitude*=-0.1"; "-GPSAltitude*=10";
             "-model*=Hero9"; "-make*=GoPro" ]) /\
  int (VStr "n/a") = inl ValueError /\
  main_loop repr false 42 [VDict [("TimeStamp", VStr "n/a")]; hero9] =
    ([], Raised ValueError).
Proof. repeat split. Qed.

(** C5 on the code: with [extract] set, the second stream is the first
    one whose time value can be read, yet the scan does not return it:
    the first stream's [TimeStamp] raises a [ValueError]. *)
Theorem select_any_raises_before_first_readable (repr : value -> string) :
  time_value dated = inl ValueError /\
  time_value hero9 = ok 42 /\
  select repr true 7 [dated; hero9] = Raised ValueError /\
  select repr true 7 [hero9] =
    Found [ "-GPSLatitude*=51.5"; "-GPSLongitude*=-0.1"; "-GPSAltitude*=10";
            "-model*=Hero9"; "-make*=GoPro" ].
Proof. repeat split. Qed.

(** C10 on the code: with [extract] set, a bundle whose [TimeStamp] is
    missing is passed over, but a bundle whose [TimeStamp] is there and
    is not an integer is neither accepted nor passed over: it ends the
    scan. *)
Theorem select_any_unreadable_ends_scan (repr : value -> string) :
  skipped repr true 0 (VDict [("GPSLatitude", VStr "51.5")]) /\
  ~ skipped repr true 0 (VDict [("TimeStamp", VStr "12:00:00")]) /\
  (forall d, ~ accepted repr true 0 (VDict [("TimeStamp", VStr "12:00:00")]) d) /\
  select repr true 0 [VDict [("TimeStamp", VStr "12:00:00")]; no_altitude]
    = Raised ValueError.
Proof.
  split; [reflexivity|]. split; [discriminate|]. split; [|reflexivity].
  intros d. discriminate.
Qed.

(* ================================================================= *)
(** ** Facts about the run *)

Lemma mbind_ok_inv {A B} (m : M A) (k : A -> M B) (w w' : World) (b : B) :
  mbind m k w = (ok b, w') ->
  exists a w1, m w = (ok a, w1) /\ k a w1 = (ok b, w').
Proof.
  unfold mbind, ok. destruct (m w) as [[e|a] w1]; [discriminate|]. eauto.
Qed.

Lemma mbind_ok {A B} (m : M A) (k : A -> M B) (w w1 : World) (a : A) :
  m w = (ok a, w1) -> mbind m k w = k a w1.
Proof. unfold mbind, ok. now intros ->. Qed.

(** A relation between the world before and after that every step of the
    run keeps, and so every run. *)
Section Frame.

Variable R : World -> World -> Prop.
Hypothesis R_refl : forall w, R w w.
Hypothesis R_trans : forall w1 w2 w3, R w1 w2 -> R w2 w3 -> R w1 w3.

Notation "'respects'" := (respects R).

Lemma respects_ret {A} (a : A) : respects (ret a).
Proof. intros w. apply R_refl. Qed.

Lemma respects_lift {A} (r : result A) : respects (lift r).
Proof. intros w. apply R_refl. Qed.

Lemma respects_mbind {A B} (m : M A) (k : A -> M B) :
  respects m -> (forall a, respects (k a)) -> respects (mbind m k).
Proof.
  intros Hm Hk w. unfold mbind. specialize (Hm w).
  destruct (m w) as [[e|a] w1]; simpl in *; [assumption|].
  eapply R_trans; [exact Hm | apply Hk].
Qed.

Variable env : Env.
Variable args : Namespace.

Hypothesis R_create : forall p, respects (create p).
Hypothesis R_emit : forall r, respects (emit args r).
Hypothesis R_exif_write : forall file i, respects (exif_write env file i).

Lemma respects_emit_all (l : list LogRecord) : respects (emit_all args l).
Proof.
  induction l as [|r l IH]; simpl; [apply respects_ret|].
  apply respects_mbind; auto.
Qed.

Lemma respects_execute (ffmpeg : Ffmpeg) : respects (execute env ffmpeg).
Proof.
  unfold execute. destruct (ffmpeg_succeeds env ffmpeg);
    [apply R_create | apply respects_lift].
Qed.

Lemma respects_extract_video (self : Video) : respects (extract_video env args self).
Proof.
  unfold extract_video, info, debug.
  repeat (apply respects_mbind; [|intros ?]);
    auto using respects_ret, respects_execute.
Qed.

Lemma respects_extract_image (self : Video) (video : string) :
  respects (extract_image env args self video).
Proof.
  unfold extract_image, info, debug.
  repeat (apply respects_mbind; [|intros ?]);
    auto using respects_ret, respects_lift, respects_execute.
Qed.

Lemma respects_write_all (file : string) (data : list string) :
  respects (write_all env file data).
Proof.
  induction data as [|i data IH]; simpl; [apply respects_ret|].
  apply respects_mbind; auto.
Qed.

Lemma respects_update_file (file : string) (data : list string) :
  respects (update_file env args file data).
Proof.
  unfold update_file, info. apply respects_mbind; [auto|]. intros _.
  apply respects_mbind; [apply respects_lift|]. intros _.
  apply respects_write_all.
Qed.

Lemma respects_choose_video (obj : Video) : respects (choose_video env args obj).
Proof.
  unfold choose_video. destruct (extract args); [|apply respects_ret].
  apply respects_mbind; [apply respects_extract_video|].
  intros ?. apply respects_ret.
Qed.

Lemma respects_choose_image (obj : Video) (video : string) :
  respects (choose_image env args obj video).
Proof.
  unfold choose_image. destruct (truthy (image_file args));
    [apply respects_ret | apply respects_extract_image].
Qed.

Lemma respects_read_streams (obj : Video) (video : string) :
  respects (read_streams env args obj video).
Proof.
  unfold read_streams, info.
  repeat (apply respects_mbind; [|intros ?]);
    auto using respects_ret, respects_lift.
Qed.

Lemma respects_before_loop : respects (before_loop env args).
Proof.
  unfold before_loop.
  apply respects_mbind; [apply respects_lift | intros obj].
  apply respects_mbind; [apply respects_choose_video | intros tv].
  apply respects_mbind; [apply respects_choose_image | intros f].
  apply respects_mbind; [apply respects_read_streams | intros streams].
  apply respects_ret.
Qed.

(** After the loop only closing the temporary file is left to check. *)
Lemma respects_from_loop (s : Locals) :
  (forall tmp, temp_video_file s = Some tmp -> respects (close tmp)) ->
  respects (from_loop env args s).
Proof.
  intros Hclose. unfold from_loop. destruct (scan env args s) as [l o].
  apply respects_mbind; [apply respects_emit_all|]. intros _.
  assert (Hafter : forall found, respects (after_loop env args s found)).
  { intros found. unfold after_loop, info.
    apply respects_mbind;
      [destruct found; auto using respects_update_file|].
    intros _. destruct (extract args); [|apply respects_ret].
    apply respects_mbind; [auto|]. intros _.
    destruct (temp_video_file s); [auto | apply respects_lift]. }
  destruct o; auto using respects_lift.
Qed.

End Frame.

Lemma in_add_file (p : string) (fs : list string) : In p (add_file p fs).
Proof.
  unfold add_file. destruct (existsb (String.eqb p) fs) eqn:H; [|now left].
  apply existsb_exists in H. destruct H as (q & Hq & Heq).
  apply String.eqb_eq in Heq. now subst.
Qed.

Lemma in_add_file_other (p q : string) (fs : list string) :
  In p fs -> In p (add_file q fs).
Proof.
  unfold add_file. destruct (existsb (String.eqb q) fs); [auto|now right].
Qed.

Lemma in_remove_file_other (p q : string) (fs : list string) :
  p <> q -> In p fs -> In p (remove_file q fs).
Proof.
  intros Hne Hin. unfold remove_file. apply filter_In. split; [assumption|].
  apply negb_true_iff, String.eqb_neq. congruence.
Qed.

Lemma not_in_remove_file (p : string) (fs : list string) :
  ~ In p (remove_file p fs).
Proof.
  unfold remove_file. intros H. apply filter_In in H. destruct H as [_ H].
  now rewrite String.eqb_refl in H.
Qed.

Lemma length_append (s1 s2 : string) :
  String.length (s1 ++ s2) = (String.length s1 + String.length s2)%nat.
Proof. induction s1 as [|c s1 IH]; simpl; congruence. Qed.

(** The clip and the temporary file are two paths. *)
Lemma clip_is_not_temp (tmp : string) : tmp ++ ".mp4" <> tmp.
Proof.
  intros H. apply (f_equal String.length) in H.
  rewrite length_append in H. simpl in H. lia.
Qed.

Lemma enabled_INFO (args : Namespace) : enabled args INFO = true.
Proof. unfold enabled, level. destruct (loglevel args); reflexivity. Qed.

Lemma emit_all_returns (args : Namespace) (l : list LogRecord) (w : World) :
  fst (emit_all args l w) = ok tt.
Proof.
  revert w. induction l as [|r l IH]; intros w; [reflexivity|].
  simpl. unfold mbind, emit at 1. apply IH.
Qed.

Lemma same_writes_refl (w : World) : same_writes w w.
Proof. reflexivity. Qed.

Lemma same_writes_trans (w1 w2 w3 : World) :
  same_writes w1 w2 -> same_writes w2 w3 -> same_writes w1 w3.
Proof. unfold same_writes. congruence. Qed.

Lemma same_writes_create (p : string) : respects same_writes (create p).
Proof. intros w. reflexivity. Qed.

Lemma same_writes_emit (args : Namespace) (r : LogRecord) :
  respects same_writes (emit args r).
Proof. intros w. unfold emit, same_writes. simpl. destruct (enabled args (fst r)); reflexivity. Qed.

Lemma keeps_file_refl (p : string) (w : World) : keeps_file p w w.
Proof. unfold keeps_file. auto. Qed.

Lemma keeps_file_trans (p : string) (w1 w2 w3 : World) :
  keeps_file p w1 w2 -> keeps_file p w2 w3 -> keeps_file p w1 w3.
Proof. unfold keeps_file. auto. Qed.

Lemma keeps_file_create (p q : string) : respects (keeps_file p) (create q).
Proof. intros w Hin. simpl. now apply in_add_file_other. Qed.

Lemma keeps_file_emit (p : string) (args : Namespace) (r : LogRecord) :
  respects (keeps_file p) (emit args r).
Proof. intros w Hin. unfold emit. simpl. destruct (enabled args (fst r)); assumption. Qed.

Lemma keeps_file_exif_write (env : Env) (p file i : string) :
  respects (keeps_file p) (exif_write env file i).
Proof.
  intros w Hin. unfold exif_write.
  destruct (exiftool_write env w file i) as [e|[|]]; simpl; auto.
  now apply in_add_file_other.
Qed.

Lemma keeps_file_close (p q : string) : p <> q -> respects (keeps_file p) (close q).
Proof. intros Hne w Hin. simpl. now apply in_remove_file_other. Qed.

(** Up to the loop the writer is not called. *)
Lemma before_loop_same_writes (env : Env) (args : Namespace) (w : World) :
  exif_writes (snd (before_loop env args w)) = exif_writes w.
Proof.
  apply (respects_before_loop same_writes same_writes_refl same_writes_trans
           env args same_writes_create (same_writes_emit args)).
Qed.

(** What [before_loop] leaves in its locals. *)
Lemma before_loop_inv (env : Env) (args : Namespace) (w w1 : World) (s : Locals) :
  before_loop env args w = (ok s, w1) ->
  exists tv w2 w3,
    Video_init (video_file args) (timestamp args) = ok (obj s) /\
    choose_video env args (obj s) w = (ok tv, w2) /\
    temp_video_file s = fst tv /\ video s = snd tv /\
    choose_image env args (obj s) (video s) w2 = (ok (f s), w3) /\
    read_streams env args (obj s) (video s) w3 = (ok (streams s), w1).
Proof.
  unfold before_loop. intros H.
  apply mbind_ok_inv in H. destruct H as (o & w0 & Ho & H).
  unfold lift in Ho. injection Ho as Ho <-.
  apply mbind_ok_inv in H. destruct H as (tv & w2 & Htv & H).
  apply mbind_ok_inv in H. destruct H as (im & w3 & Him & H).
  apply mbind_ok_inv in H. destruct H as (st & w4 & Hst & H).
  unfold ret, ok in H. injection H as <- <-. simpl.
  exists tv, w2, w3. repeat split; assumption.
Qed.

(** With [extract] set the video is the clip, a file of its own next to
    the temporary file, and it exists once ffmpeg has run. *)
Lemma choose_video_extract (env : Env) (args : Namespace) (o : Video)
    (w w2 : World) (tv : option string * string) :
  extract args = true -> choose_video env args o w = (ok tv, w2) ->
  tv = (Some (NamedTemporaryFile env), NamedTemporaryFile env ++ ".mp4") /\
  In (NamedTemporaryFile env ++ ".mp4") (files w2).
Proof.
  intros He H. unfold choose_video in H. rewrite He in H.
  apply mbind_ok_inv in H. destruct H as (r & w1 & Hr & H).
  unfold ret, ok in H. injection H as <- <-.
  unfold extract_video in Hr.
  apply mbind_ok_inv in Hr. destruct Hr as (? & wa & _ & Hr).
  apply mbind_ok_inv in Hr. destruct Hr as (? & wb & _ & Hr).
  apply mbind_ok_inv in Hr. destruct Hr as (? & wc & _ & Hr).
  apply mbind_ok_inv in Hr. destruct Hr as (? & wd & Hex & Hr).
  unfold ret, ok in Hr. injection Hr as <- <-. simpl. split; [reflexivity|].
  unfold execute in Hex. simpl in Hex.
  destruct (ffmpeg_succeeds env _); [|discriminate].
  unfold create, ok in Hex. injection Hex as Hw. subst wd. simpl. apply in_add_file.
Qed.

Lemma choose_video_no_extract (env : Env) (args : Namespace) (o : Video)
    (w w2 : World) (tv : option string * string) :
  extract args = false -> choose_video env args o w = (ok tv, w2) ->
  tv = (None, video_file args) /\ w2 = w.
Proof.
  intros He H. unfold choose_video in H. rewrite He in H.
  unfold ret, ok in H. injection H as <- <-. auto.
Qed.

Lemma emit_all_same_writes (args : Namespace) (l : list LogRecord) (w : World) :
  exif_writes (snd (emit_all args l w)) = exif_writes w.
Proof.
  apply (respects_emit_all same_writes same_writes_refl same_writes_trans
           args (same_writes_emit args)).
Qed.

(** What the last lines do when nothing was found. *)
Lemma after_loop_not_found (env : Env) (args : Namespace) (s : Locals) (w : World) :
  (extract args = true -> exists tmp, temp_video_file s = Some tmp) ->
  exists w',
    after_loop env args s None w = (ok tt, w') /\
    exif_writes w' = exif_writes w /\
    In (INFO, "No metadata found in " ++ video s) (log w').
Proof.
  intros Htmp. unfold after_loop, info, emit, mbind. simpl.
  rewrite enabled_INFO. destruct (extract args).
  - destruct Htmp as [tmp ->]; [reflexivity|]. simpl.
    eexists. split; [reflexivity|]. simpl. split; [reflexivity|].
    apply in_or_app. left. apply in_or_app. right. now left.
  - eexists. split; [reflexivity|]. simpl. split; [reflexivity|].
    apply in_or_app. right. now left.
Qed.

(** C9: a run whose scan ends in [NotFound] returns normally, has given
    no directive to the writer, and has logged, at level INFO, that no
    metadata was found in the video. *)
Theorem not_found_run
    (env : Env) (args : Namespace) (w w1 : World) (s : Locals) :
  before_loop env args w = (ok s, w1) ->
  snd (scan env args s) = NotFound ->
  exists w2,
    main env args w = (ok tt, w2) /\
    exif_writes w2 = exif_writes w /\
    In (INFO, "No metadata found in " ++ video s) (log w2).
Proof.
  intros Hb Hs.
  assert (Htmp : extract args = true -> exists tmp, temp_video_file s = Some tmp).
  { intros He. destruct (before_loop_inv _ _ _ _ _ Hb)
      as (tv & w2 & w3 & _ & Htv & Ht & _).
    destruct (choose_video_extract _ _ _ _ _ _ He Htv) as [-> _].
    rewrite Ht. simpl. eauto. }
  assert (Hw1 : exif_writes w1 = exif_writes w).
  { pose proof (before_loop_same_writes env args w) as H. now rewrite Hb in H. }
  unfold main. rewrite (mbind_ok _ _ _ _ _ Hb). unfold from_loop.
  destruct (scan env args s) as [l o]. simpl in Hs. subst o.
  pose proof (emit_all_returns args l w1) as Hr.
  pose proof (emit_all_same_writes args l w1) as Hw.
  unfold mbind at 1. destruct (emit_all args l w1) as [r w1']. simpl in Hr, Hw.
  subst r. unfold ok.
  destruct (after_loop_not_found env args s w1' Htmp) as (w2 & Hrun & Hwr & Hlog).
  exists w2. split; [exact Hrun|]. split; [congruence | exact Hlog].
Qed.

Lemma not_found_run_witness :
  exists w2,
    main studio at_one_minute empty_world = (ok tt, w2) /\
    exif_writes w2 = exif_writes empty_world /\
    In (INFO, "No metadata found in GX010001.MP4") (log w2).
Proof.
  apply (not_found_run studio at_one_minute empty_world
           {| files := [];
              log := [(INFO, "Extracting metadata from video file GX010001.MP4");
                      (INFO, "Searching the metadata for timestamp 60 (60)")];
              exif_writes := [] |}
           {| obj := {| self_video_file := "GX010001.MP4";
                        self_timestamp := "00:01:00";
                        timestamp_seconds := 60 |};
              temp_video_file := None;
              video := "GX010001.MP4";
              f := "frame.jpg";
              streams := [VStr "GX010001.MP4"; hero9] |}).
  - reflexivity.
  - reflexivity.
Defined.

(* ================================================================= *)
(** ** The temporary file and the clip

    [extract_video] makes a temporary file and has ffmpeg write the clip
    to that file's name followed by [.mp4], another path. The last lines
    of [main] announce the deletion of the clip and close the temporary
    file, which deletes the temporary file only. *)

(** Once the clip is written nothing in the run removes it. *)
Lemma from_loop_keeps_clip (env : Env) (args : Namespace) (s : Locals) (w : World) :
  temp_video_file s = Some (NamedTemporaryFile env) ->
  In (NamedTemporaryFile env ++ ".mp4") (files w) ->
  In (NamedTemporaryFile env ++ ".mp4") (files (snd (from_loop env args s w))).
Proof.
  intros Htmp.
  apply (respects_from_loop (keeps_file (NamedTemporaryFile env ++ ".mp4"))
           (keeps_file_refl _) (keeps_file_trans _) env args
           (keeps_file_emit _ args) (keeps_file_exif_write env _)).
  intros tmp Ht. rewrite Htmp in Ht. injection Ht as <-.
  apply keeps_file_close, clip_is_not_temp.
Qed.

Lemma before_loop_clip (env : Env) (args : Namespace) (w w1 : World) (s : Locals) :
  extract args = true -> before_loop env args w = (ok s, w1) ->
  temp_video_file s = Some (NamedTemporaryFile env) /\
  video s = NamedTemporaryFile env ++ ".mp4" /\
  In (NamedTemporaryFile env ++ ".mp4") (files w1).
Proof.
  intros He Hb.
  destruct (before_loop_inv _ _ _ _ _ Hb)
    as (tv & w2 & w3 & _ & Htv & Ht & Hv & Him & Hst).
  destruct (choose_video_extract _ _ _ _ _ _ He Htv) as [-> Hin].
  simpl in Ht, Hv. repeat split; [assumption..|].
  pose proof (respects_read_streams (keeps_file (NamedTemporaryFile env ++ ".mp4"))
                (keeps_file_refl _) (keeps_file_trans _) env args
                (keeps_file_emit _ args) (obj s) (video s) w3) as H1.
  pose proof (respects_choose_image (keeps_file (NamedTemporaryFile env ++ ".mp4"))
                (keeps_file_refl _) (keeps_file_trans _) env args
                (keeps_file_create _) (keeps_file_emit _ args)
                (obj s) (video s) w2) as H2.
  rewrite Hst in H1. rewrite Him in H2. simpl in H1, H2. apply H1, H2, Hin.
Qed.

(** X4: every run that extracts a clip and gets as far as the loop ends,
    normally or with an exception, with the clip still on disk. *)
Theorem clip_outlives_run
    (env : Env) (args : Namespace) (w w1 : World) (s : Locals) :
  extract args = true ->
  before_loop env args w = (ok s, w1) ->
  In (NamedTemporaryFile env ++ ".mp4") (files (snd (main env args w))).
Proof.
  intros He Hb.
  destruct (before_loop_clip _ _ _ _ _ He Hb) as (Htmp & _ & Hin).
  unfold main. rewrite (mbind_ok _ _ _ _ _ Hb).
  now apply from_loop_keeps_clip.
Qed.

Lemma clip_outlives_run_witness :
  In "/tmp/tmpk2v9x1.mp4" (files (snd (main studio extract_at_42 empty_world))).
Proof.
  apply (clip_outlives_run studio extract_at_42 empty_world
           {| files := ["/tmp/tmpk2v9x1.mp4"; "/tmp/tmpk2v9x1"];
              log := [(INFO, "Extracting 1 second of video from GX010001.MP4 starting at 00:00:42");
                      (INFO, "Extracting metadata from video file /tmp/tmpk2v9x1.mp4");
                      (INFO, "Searching the metadata for timestamp 42 (42)")];
              exif_writes := [] |}
           {| obj := {| self_video_file := "GX010001.MP4";
                        self_timestamp := "00:00:42";
                        timestamp_seconds := 42 |};
              temp_video_file := Some "/tmp/tmpk2v9x1";
              video := "/tmp/tmpk2v9x1.mp4";
              f := "frame.jpg";
              streams := [VStr "/tmp/tmpk2v9x1.mp4"; hero9] |}).
  - reflexivity.
  - vm_compute. reflexivity.
Defined.

(** C7 on the code: a run with [-e], from an empty directory. It ends
    normally, says it deletes the clip [/tmp/tmpk2v9x1.mp4], and deletes
    [/tmp/tmpk2v9x1] instead: the clip is the one file left, both when a
    match was found and when none was. *)
Theorem temporary_clip_left_behind :
  (exists w',
     main studio extract_at_42 empty_world = (ok tt, w') /\
     In (INFO, "Deleting temporary video file /tmp/tmpk2v9x1.mp4") (log w') /\
     exif_writes w' <> [] /\
     files w' = ["/tmp/tmpk2v9x1.mp4"]) /\
  (exists w',
     main silent_studio extract_at_42 empty_world = (ok tt, w') /\
     In (INFO, "No metadata found in /tmp/tmpk2v9x1.mp4") (log w') /\
     In (INFO, "Deleting temporary video file /tmp/tmpk2v9x1.mp4") (log w') /\
     files w' = ["/tmp/tmpk2v9x1.mp4"]).
Proof.
  split; eexists; (split; [vm_compute; reflexivity|]); cbv [log files exif_writes].
  - split; [simpl; tauto|]. split; [discriminate | reflexivity].
  - split; [simpl; tauto|]. split; [simpl; tauto | reflexivity].
Qed.

(* ================================================================= *)
(** ** What holds of the scan besides *)

(** X1: with [extract] unset, when every stream before it is passed
    over, the first bundle whose time value is the target is the one
    returned, and nothing after it is looked at. *)
Theorem select_first_exact_match
    (repr : value -> string) (target : Z) (pre post : list value) (v : value) :
  Forall (skipped repr false target) pre ->
  time_value v = ok target ->
  exists d,
    data repr v = ok d /\
    select repr false target (pre ++ v :: post) = Found d.
Proof.
  intros Hpre Ht.
  assert (Hg : exists x, get v "TimeStamp" = ok x).
  { unfold time_value in Ht. destruct (get v "TimeStamp"); [discriminate|eauto]. }
  destruct Hg as [x Hg]. destruct (get_ok_dict _ _ _ Hg) as [dct ->].
  destruct (data_dict repr dct) as (lat & lon & alt & name & _ & _ & _ & _ & Hd).
  eexists. split; [exact Hd|].
  rewrite select_app_skipped by assumption. rewrite select_cons.
  pose proof (proj2 (accepted_iff repr false target (VDict dct) _)
                (ex_intro _ target
                   (conj Ht (conj (f_equal (orb false) (Z.eqb_refl target)) Hd))))
    as Hacc.
  unfold accepted in Hacc. now rewrite Hacc.
Qed.

Lemma select_first_exact_match_witness :
  exists d,
    data (fun _ => "") hero9 = ok d /\
    select (fun _ => "") false 42
      ([VStr "GX010001.MP4"; VInt 3; VDict [("DeviceName", VStr "Hero9")];
        VDict [("TimeStamp", VInt 41)]] ++ hero9 :: [dated]) = Found d.
Proof.
  apply (select_first_exact_match (fun _ => "") 42
           [VStr "GX010001.MP4"; VInt 3; VDict [("DeviceName", VStr "Hero9")];
            VDict [("TimeStamp", VInt 41)]] [dated] hero9).
  - repeat constructor.
  - reflexivity.
Defined.

(** X2: with [extract] set the target plays no part: the log and the
    outcome are those of any other target. *)
Theorem main_loop_any_ignores_target
    (repr : value -> string) (t1 t2 : Z) (vals : list value) :
  main_loop repr true t1 vals = main_loop repr true t2 vals.
Proof.
  induction vals as [|v vals IH]; [reflexivity|].
  simpl. rewrite IH. reflexivity.
Qed.

(** X3: a timestamp that is accepted counts hours, minutes and seconds. *)
Theorem timestamp_seconds_sum (video_file timestamp : string) (v : Video) :
  Video_init video_file timestamp = ok v ->
  exists a b c rest h m s,
    split ":" timestamp = a :: b :: c :: rest /\
    int_of_str a = ok h /\ int_of_str b = ok m /\ int_of_str c = ok s /\
    timestamp_seconds v = h * 3600 + m * 60 + s.
Proof.
  intros H. apply Video_init_ok_iff in H.
  destruct H as (a & b & c & rest & h & m & s & Hsp & Ha & Hb & Hc & ->).
  exists a, b, c, rest, h, m, s. repeat split; auto. simpl. lia.
Qed.

Lemma timestamp_seconds_sum_witness :
  exists a b c rest h m s,
    split ":" "01:02:03" = a :: b :: c :: rest /\
    int_of_str a = ok h /\ int_of_str b = ok m /\ int_of_str c = ok s /\
    3723 = h * 3600 + m * 60 + s.
Proof.
  apply (timestamp_seconds_sum "GX010001.MP4" "01:02:03"
           {| self_video_file := "GX010001.MP4";
              self_timestamp := "01:02:03";
              timestamp_seconds := 3723 |}).
  reflexivity.
Defined.

(* ================================================================= *)
(** ** The writer: what reaches it and when *)


(** The calls [write_all] hands to exiftool are the directives in their
    order, up to and with the first one on which the wrapper raises. *)
Lemma write_all_calls (env : Env) (file : string) (data : list string) (w : World) :
  exists k,
    (k <= List.length data)%nat /\
    exif_writes (snd (write_all env file data w)) =
      (exif_writes w ++ map (pair file) (firstn k data))%list /\
    (fst (write_all env file data w) = ok tt -> k = List.length data).
Proof.
  revert w. induction data as [|i data IH]; intros w.
  - exists 0%nat. simpl. rewrite app_nil_r. auto.
  - simpl. unfold mbind, exif_write.
    destruct (exiftool_write env w file i) as [e|rewritten].
    + exists 1%nat. simpl. split; [lia|]. split; [reflexivity|]. discriminate.
    + match goal with |- context [write_all env file data ?w1] =>
        destruct (IH w1) as (k & Hk & Hw & Hok) end.
      exists (S k). simpl in Hw |- *. split; [lia|]. split.
      * rewrite Hw, <- app_assoc. reflexivity.
      * intros H. now rewrite (Hok H).
Qed.




(** When the wrapper raises on none of the directives, [write_all]
    returns. *)
Lemma write_all_returns (env : Env) (file : string) (data : list string) (w : World) :
  (forall w0 i, In i data -> exists b, exiftool_write env w0 file i = ok b) ->
  fst (write_all env file data w) = ok tt.
Proof.
  revert w. induction data as [|i data IH]; intros w Hall; [reflexivity|].
  simpl. unfold mbind, exif_write.
  destruct (Hall w i (or_introl eq_refl)) as [b Hb]. unfold ok in Hb. rewrite Hb.
  apply IH. intros w0 j Hj. apply Hall. now right.
Qed.

(** [update_file] is the log record, the start of exiftool and
    [write_all]. *)
Lemma update_file_unfold (env : Env) (args : Namespace) (file : string)
    (data : list string) (w : World) :
  update_file env args file data w =
    let w1 := {| files := files w;
                 log := (log w ++ [(INFO, ("Found match.  Updating image file " ++ file
                                          ++ " with GPS data")%string)])%list;
                 exif_writes := exif_writes w |} in
    match exiftool_start env with
    | inl e => (inl e, w1)
    | inr _ => write_all env file data w1
    end.
Proof.
  unfold update_file, info, emit, mbind, lift. simpl. rewrite enabled_INFO.
  destruct (exiftool_start env); reflexivity.
Qed.

Lemma update_file_calls (env : Env) (args : Namespace) (file : string)
    (data : list string) (w : World) :
  exists k,
    (k <= List.length data)%nat /\
    exif_writes (snd (update_file env args file data w)) =
      (exif_writes w ++ map (pair file) (firstn k data))%list /\
    (fst (update_file env args file data w) = ok tt -> k = List.length data).
Proof.
  rewrite update_file_unfold. simpl. destruct (exiftool_start env) as [e|u].
  - exists 0%nat. simpl. rewrite app_nil_r. split; [lia|]. split; [reflexivity|].
    discriminate.
  - match goal with |- context [write_all env file data ?w1] =>
      destruct (write_all_calls env file data w1) as (k & Hk & Hw & Hok) end.
    exists k. auto.
Qed.


Lemma update_file_returns (env : Env) (args : Namespace) (file : string)
    (data : list string) (w : World) :
  exiftool_start env = ok tt ->
  (forall w0 i, In i data -> exists b, exiftool_write env w0 file i = ok b) ->
  fst (update_file env args file data w) = ok tt.
Proof.
  intros Hs Hall. rewrite update_file_unfold, Hs. simpl.
  now apply write_all_returns.
Qed.


(** The last lines of [main] after [update_file] or the "No metadata
    found" record: they always return once [before_loop] has set the
    temporary file that [extract] asks for, and call the writer no
    more. *)
Lemma after_loop_unfold (env : Env) (args : Namespace) (s : Locals)
    (found : option (list string)) (w : World) :
  after_loop env args s found w =
    match
      match found with
      | Some data => update_file env args (f s) data w
      | None => info args ("No metadata found in " ++ video s) w
      end
    with
    | (inl e, w1) => (inl e, w1)
    | (inr _, w1) =>
        if extract args then
          match temp_video_file s with
          | Some tmp =>
              (ok tt,
               {| files := remove_file tmp (files w1);
                  log := (log w1 ++ [(INFO, ("Deleting temporary video file "
                                            ++ video s)%string)])%list;
                  exif_writes := exif_writes w1 |})
          | None =>
              (inl (AttributeError "'Video' object has no attribute 'temp_video_file'"),
               {| files := files w1;
                  log := (log w1 ++ [(INFO, ("Deleting temporary video file "
                                            ++ video s)%string)])%list;
                  exif_writes := exif_writes w1 |})
          end
        else (ok tt, w1)
    end.
Proof.
  unfold after_loop, mbind.
  destruct (match found with
            | Some data => update_file env args (f s) data
            | None => info args ("No metadata found in " ++ video s)
            end w) as [[e|u] w1] eqn:H1.
  - destruct found; rewrite H1; reflexivity.
  - destruct found; rewrite H1; (destruct (extract args); [|reflexivity]);
      unfold info, emit, ret, close, lift; simpl; rewrite enabled_INFO;
      destruct (temp_video_file s); reflexivity.
Qed.

Lemma after_loop_calls (env : Env) (args : Namespace) (s : Locals)
    (found : option (list string)) (w : World) :
  exists k,
    (k <= List.length (match found with Some data => data | None => [] end))%nat /\
    exif_writes (snd (after_loop env args s found w)) =
      (exif_writes w ++
       map (pair (f s))
         (firstn k (match found with Some data => data | None => [] end)))%list /\
    (fst (after_loop env args s found w) = ok tt ->
     k = List.length (match found with Some data => data | None => [] end)).
Proof.
  rewrite after_loop_unfold. destruct found as [data|].
  - destruct (update_file_calls env args (f s) data w) as (k & Hk & Hw & Hok).
    exists k. split; [exact Hk|].
    destruct (update_file env args (f s) data w) as [[e|u] w1]; simpl in *.
    + split; [exact Hw | discriminate].
    + split.
      * destruct (extract args); [destruct (temp_video_file s)|]; exact Hw.
      * intros _. apply Hok. now destruct u.
  - exists 0%nat. simpl. rewrite app_nil_r. split; [lia|].
    unfold info, emit. simpl. rewrite enabled_INFO.
    split; [|reflexivity].
    destruct (extract args); [destruct (temp_video_file s)|]; reflexivity.
Qed.


Lemma after_loop_returns (env : Env) (args : Namespace) (s : Locals)
    (found : option (list string)) (w : World) :
  (extract args = true -> exists tmp, temp_video_file s = Some tmp) ->
  match found with
  | Some data => fst (update_file env args (f s) data w) = ok tt
  | None => True
  end ->
  fst (after_loop env args s found w) = ok tt.
Proof.
  intros Htmp Hup. rewrite after_loop_unfold. destruct found as [data|].
  - destruct (update_file env args (f s) data w) as [[e|[]] w1]; simpl in *;
      [discriminate|].
    destruct (extract args); [|reflexivity].
    destruct Htmp as [tmp ->]; reflexivity.
  - unfold info, emit. simpl. rewrite enabled_INFO.
    destruct (extract args); [|reflexivity].
    destruct Htmp as [tmp ->]; reflexivity.
Qed.

Lemma before_loop_temp (env : Env) (args : Namespace) (w w1 : World) (s : Locals) :
  before_loop env args w = (ok s, w1) ->
  extract args = true -> exists tmp, temp_video_file s = Some tmp.
Proof.
  intros Hb He. destruct (before_loop_clip _ _ _ _ _ He Hb) as (H & _). eauto.
Qed.

(** The run from the loop on, as the scan's outcome decides. *)
Lemma from_loop_unfold (env : Env) (args : Namespace) (s : Locals) (w : World) :
  from_loop env args s w =
    match snd (scan env args s) with
    | Found data =>
        after_loop env args s (Some data) (snd (emit_all args (fst (scan env args s)) w))
    | NotFound =>
        after_loop env args s None (snd (emit_all args (fst (scan env args s)) w))
    | Raised e => (inl e, snd (emit_all args (fst (scan env args s)) w))
    end.
Proof.
  unfold from_loop. destruct (scan env args s) as [l o]. simpl.
  pose proof (emit_all_returns args l w) as Hr.
  unfold mbind. destruct (emit_all args l w) as [r w1]. simpl in Hr. subst r.
  unfold ok. destruct o; reflexivity.
Qed.

(** A run whose scan finds a match goes on with the last lines of
    [main] on the list found. *)
Lemma main_found_unfold (env : Env) (args : Namespace) (w w1 : World)
    (s : Locals) (data : list string) :
  before_loop env args w = (ok s, w1) ->
  snd (scan env args s) = Found data ->
  main env args w =
    after_loop env args s (Some data)
      (snd (emit_all args (fst (scan env args s)) w1)).
Proof.
  intros Hb Hs. unfold main.
  now rewrite (mbind_ok _ _ _ _ _ Hb), from_loop_unfold, Hs.
Qed.

Lemma main_found_calls (env : Env) (args : Namespace) (w w1 : World)
    (s : Locals) (data : list string) :
  before_loop env args w = (ok s, w1) ->
  snd (scan env args s) = Found data ->
  exists k,
    (k <= List.length data)%nat /\
    exif_writes (snd (main env args w)) =
      (exif_writes w ++ map (pair (f s)) (firstn k data))%list /\
    (fst (main env args w) = ok tt -> k = List.length data).
Proof.
  intros Hb Hs. rewrite (main_found_unfold _ _ _ _ _ _ Hb Hs).
  pose proof (before_loop_same_writes env args w) as Hw. rewrite Hb in Hw.
  simpl in Hw.
  match goal with |- context [after_loop env args s (Some data) ?w2] =>
    destruct (after_loop_calls env args s (Some data) w2) as (k & Hk & Hc & Hok) end.
  rewrite emit_all_same_writes, Hw in Hc. exists k. auto.
Qed.

Lemma main_found_returns (env : Env) (args : Namespace) (w w1 : World)
    (s : Locals) (data : list string) :
  before_loop env args w = (ok s, w1) ->
  snd (scan env args s) = Found data ->
  exiftool_start env = ok tt ->
  (forall w0 i, In i data -> exists b, exiftool_write env w0 (f s) i = ok b) ->
  fst (main env args w) = ok tt.
Proof.
  intros Hb Hs Hstart Hall. rewrite (main_found_unfold _ _ _ _ _ _ Hb Hs).
  apply after_loop_returns.
  - apply (before_loop_temp _ _ _ _ _ Hb).
  - now apply update_file_returns.
Qed.



(** X6: a run whose scan ends in [Found data] and in which exiftool
    starts and its wrapper raises on none of the directives returns
    normally, and the writer has received the directives of [data], one
    call each, in their order, all for the image [f]; nothing else
    reached it. *)
Theorem found_run
    (env : Env) (args : Namespace) (w w1 : World) (s : Locals)
    (data : list string) :
  before_loop env args w = (ok s, w1) ->
  snd (scan env args s) = Found data ->
  exiftool_start env = ok tt ->
  (forall w0 i, In i data -> exists b, exiftool_write env w0 (f s) i = ok b) ->
  exists w2,
    main env args w = (ok tt, w2) /\
    exif_writes w2 = (exif_writes w ++ map (pair (f s)) data)%list.
Proof.
  intros Hb Hs Hstart Hall.
  pose proof (main_found_returns _ _ _ _ _ _ Hb Hs Hstart Hall) as Hret.
  destruct (main_found_calls _ _ _ _ _ _ Hb Hs) as (k & _ & Hc & Hok).
  rewrite (Hok Hret), firstn_all in Hc.
  destruct (main env args w) as [r w2]. simpl in Hret, Hc. subst r.
  exists w2. auto.
Qed.

Lemma found_run_witness :
  exists w2,
    main studio at_42 empty_world = (ok tt, w2) /\
    exif_writes w2 =
      (exif_writes empty_world ++
       map (pair "frame.jpg")
         [ "-GPSLatitude*=51.5"; "-GPSLongitude*=-0.1"; "-GPSAltitude*=10";
           "-model*=Hero9"; "-make*=GoPro" ])%list.
Proof.
  apply (found_run studio at_42 empty_world
           {| files := [];
              log := [(INFO, "Extracting metadata from video file GX010001.MP4");
                      (INFO, "Searching the metadata for timestamp 42 (42)")];
              exif_writes := [] |}
           {| obj := {| self_video_file := "GX010001.MP4";
                        self_timestamp := "00:00:42";
                        timestamp_seconds := 42 |};
              temp_video_file := None;
              video := "GX010001.MP4";
              f := "frame.jpg";
              streams := [VStr "GX010001.MP4"; hero9] |}).
  - vm_compute. reflexivity.
  - vm_compute. reflexivity.
  - reflexivity.
  - intros w0 i _. eexists. reflexivity.
Defined.





(** X8: a timestamp the constructor rejects ends the run at once, with
    the constructor's exception and the world as it was: no log record,
    no file, no call to ffmpeg or exiftool. *)
Theorem bad_timestamp_stops_at_once
    (env : Env) (args : Namespace) (w : World) (e : Exn) :
  Video_init (video_file args) (timestamp args) = inl e ->
  main env args w = (inl e, w).
Proof.
  intros H. unfold main, before_loop, mbind, lift. now rewrite H.
Qed.

Lemma bad_timestamp_stops_at_once_witness :
  main studio at_two_pieces empty_world = (inl IndexError, empty_world).
Proof.
  apply (bad_timestamp_stops_at_once studio at_two_pieces empty_world IndexError).
  reflexivity.
Defined.

(* ================================================================= *)
(** ** The image option, the files and the log *)

(** [-i] with the empty string is [-i] left out: the run is the same,
    step for step, as without the option. *)
Lemma empty_image_is_no_image
    (env : Env) (v ts : string) (e : bool) (l : Level) (w : World) :
  main env {| video_file := v; image_file := Some ""; timestamp := ts;
              extract := e; loglevel := l |} w =
  main env {| video_file := v; image_file := None; timestamp := ts;
              extract := e; loglevel := l |} w.
Proof. reflexivity. Qed.






(** X10: a run with [extract] set that returns normally has deleted the
    temporary file [NamedTemporaryFile] made. *)
Theorem temporary_file_deleted
    (env : Env) (args : Namespace) (w w' : World) :
  extract args = true ->
  main env args w = (ok tt, w') ->
  ~ In (NamedTemporaryFile env) (files w').
Proof.
  intros He Hm. unfold main in Hm.
  apply mbind_ok_inv in Hm. destruct Hm as (s & w1 & Hb & Hm).
  destruct (before_loop_clip _ _ _ _ _ He Hb) as (Htmp & _ & _).
  rewrite from_loop_unfold in Hm.
  assert (Hal : forall found w0,
             after_loop env args s found w0 = (ok tt, w') ->
             ~ In (NamedTemporaryFile env) (files w')).
  { intros found w0 H. rewrite after_loop_unfold, He, Htmp in H.
    destruct (match found with
              | Some data => update_file env args (f s) data w0
              | None => info args ("No metadata found in " ++ video s) w0
              end) as [[e|u] w2]; [discriminate|].
    injection H as <-. simpl. apply not_in_remove_file. }
  destruct (snd (scan env args s)); [eapply Hal; eauto | eapply Hal; eauto |].
  discriminate.
Qed.

Lemma temporary_file_deleted_witness :
  ~ In "/tmp/tmpk2v9x1" ["/tmp/tmpk2v9x1.mp4"].
Proof.
  apply (temporary_file_deleted studio extract_at_42 empty_world
           {| files := ["/tmp/tmpk2v9x1.mp4"];
              log := [(INFO, "Extracting 1 second of video from GX010001.MP4 starting at 00:00:42");
                      (INFO, "Extracting metadata from video file /tmp/tmpk2v9x1.mp4");
                      (INFO, "Searching the metadata for timestamp 42 (42)");
                      (INFO, "Found match.  Updating image file frame.jpg with GPS data");
                      (INFO, "Deleting temporary video file /tmp/tmpk2v9x1.mp4")];
              exif_writes :=
                map (pair "frame.jpg")
                  [ "-GPSLatitude*=51.5"; "-GPSLongitude*=-0.1"; "-GPSAltitude*=10";
                    "-model*=Hero9"; "-make*=GoPro" ] |}).
  - reflexivity.
  - vm_compute. reflexivity.
Defined.



(** In the directory that holds the image, the run of the witness above
    ends with the image and its copy. *)
Example backup_made :
  files (snd (main studio at_42 with_frame)) = ["frame.jpg_original"; "frame.jpg"].
Proof. vm_compute. reflexivity. Qed.

Lemma no_new_debug_refl (w : World) : no_new_debug w w.
Proof. unfold no_new_debug. auto. Qed.

Lemma no_new_debug_trans (w1 w2 w3 : World) :
  no_new_debug w1 w2 -> no_new_debug w2 w3 -> no_new_debug w1 w3.
Proof. unfold no_new_debug. auto. Qed.

Lemma no_new_debug_emit (args : Namespace) (r : LogRecord) :
  loglevel args <> DEBUG -> respects no_new_debug (emit args r).
Proof.
  intros Hl w msg. unfold emit. simpl.
  destruct (enabled args (fst r)) eqn:Hen; [|auto]. simpl.
  intros Hin. apply in_app_or in Hin. destruct Hin as [Hin | [Heq | []]]; [assumption|].
  subst r. exfalso. unfold enabled, level in Hen. simpl in Hen.
  destruct (loglevel args); [contradiction | discriminate..].
Qed.

(** X12: unless the log level is DEBUG, a run adds no DEBUG record to
    the log, however it ends: the loop's "This element is a string" and
    "Found timestamp" lines and the ffmpeg arguments are held back. *)
Theorem debug_only_on_request
    (env : Env) (args : Namespace) (w : World) :
  loglevel args <> DEBUG ->
  no_new_debug w (snd (main env args w)).
Proof.
  intros Hl.
  assert (Hcreate : forall p, respects no_new_debug (create p))
    by (intros p w0 msg H; exact H).
  assert (Hwrite : forall file i, respects no_new_debug (exif_write env file i)).
  { intros file i w0 msg. unfold exif_write.
    destruct (exiftool_write env w0 file i); simpl; auto. }
  assert (Hclose : forall p, respects no_new_debug (close p))
    by (intros p w0 msg H; exact H).
  pose proof (fun r => no_new_debug_emit args r Hl) as Hemit.
  apply (respects_mbind no_new_debug no_new_debug_trans).
  - apply (respects_before_loop no_new_debug no_new_debug_refl no_new_debug_trans
             env args Hcreate Hemit).
  - intros s.
    apply (respects_from_loop no_new_debug no_new_debug_refl no_new_debug_trans
             env args Hemit Hwrite s).
    intros tmp _. apply Hclose.
Qed.

Lemma debug_only_on_request_witness :
  no_new_debug empty_world (snd (main studio at_42 empty_world)).
Proof.
  apply (debug_only_on_request studio at_42 empty_world).
  discriminate.
Defined.

(* ================================================================= *)
(** ** More on the scan *)

(** X13: the only exceptions that leave the loop are [ValueError] and
    [OverflowError], and each comes from [int] on the [TimeStamp] of a
    stream that every earlier stream let the loop reach. No
    [AttributeError], [TypeError], [KeyError] or [IndexError] ends a
    scan. *)
Theorem select_raises_only
    (repr : value -> string) (extract : bool) (target : Z)
    (vals : list value) (e : Exn) :
  select repr extract target vals = Raised e ->
  (e = ValueError \/ e = OverflowError) /\
  exists pre v post,
    vals = (pre ++ v :: post)%list /\
    Forall (skipped repr extract target) pre /\
    time_value v = inl e.
Proof.
  intros H.
  destruct (select_raised_inv _ _ _ _ _ H) as (pre & v & post & -> & Hpre & Hab).
  apply aborts_iff in Hab. destruct Hab as [Ht He].
  split; [exact He|]. exists pre, v, post. auto.
Qed.

Lemma select_raises_only_witness :
  (ValueError = ValueError \/ ValueError = OverflowError) /\
  exists pre v post,
    [VStr "GX010001.MP4"; dated; hero9] = (pre ++ v :: post)%list /\
    Forall (skipped (fun _ => "") false 42) pre /\
    time_value v = inl ValueError.
Proof.
  apply (select_raises_only (fun _ => "") false 42
           [VStr "GX010001.MP4"; dated; hero9] ValueError).
  reflexivity.
Defined.

(** X14: the scan ends in [NotFound] exactly when every stream is one
    the loop passes over: a string, a value without [get], a bundle on
    whose [TimeStamp] [int] raises a [TypeError] (absent, null, a list
    or a dict), or, with [extract] unset, a bundle whose integer time is
    not the target. *)
Theorem select_notfound_exactly
    (repr : value -> string) (extract : bool) (target : Z) (vals : list value) :
  select repr extract target vals = NotFound <->
  Forall (fun v =>
            isinstance_str v = true \/
            (exists m, time_value v = inl (AttributeError m)) \/
            time_value v = inl TypeError \/
            (exists t, time_value v = ok t /\ extract = false /\ t <> target))
         vals.
Proof.
  rewrite select_notfound_iff. split; intros H.
  - eapply Forall_impl; [|exact H]. intros v Hv. now apply skipped_iff in Hv.
  - eapply Forall_impl; [|exact H]. intros v Hv. now apply skipped_iff.
Qed.

(** [int] on a positive float with a fraction: the integer part. *)
Lemma shiftl_floor (m : positive) (e t : Z) :
  e <= 0 ->
  (Z.shiftl (Z.pos m) e = t <->
   t * 2 ^ (- e) <= Z.pos m < (t + 1) * 2 ^ (- e)).
Proof.
  intros He.
  assert (Hp : 0 < 2 ^ (- e)) by (apply Z.pow_pos_nonneg; lia).
  replace e with (- (- e)) at 1 by lia.
  rewrite Z.shiftl_opp_r, Z.shiftr_div_pow2 by lia.
  split.
  - intros <-. pose proof (Z.mul_div_le (Z.pos m) _ Hp).
    pose proof (Z.mul_succ_div_gt (Z.pos m) _ Hp). nia.
  - intros [H1 H2]. symmetry. apply (Z.div_unique_pos _ _ _ (Z.pos m - t * 2 ^ (- e))); lia.
Qed.

(** X15: a [TimeStamp] that is a float is cut, not rounded: a bundle
    whose [TimeStamp] is the positive float [m * 2^e], [e <= 0], has time
    value [t] exactly when [t <= m * 2^e < t + 1]. So 42.999 matches the
    target 42 and never 43. *)
Theorem float_time_value_truncates
    (d : list (string * value)) (m : positive) (e t : Z) :
  e <= 0 ->
  lookup "TimeStamp" d = Some (VFloat (S754_finite false m e)) ->
  (time_value (VDict d) = ok t <->
   t * 2 ^ (- e) <= Z.pos m < (t + 1) * 2 ^ (- e)).
Proof.
  intros He Hl. unfold time_value. simpl. rewrite Hl. simpl.
  rewrite <- (shiftl_floor m e t He). unfold ok. split.
  - now intros [= ->].
  - now intros ->.
Qed.

Lemma float_time_value_truncates_witness :
  time_value (VDict [("TimeStamp", VFloat (S754_finite false 85 (-1)))]) = ok 42 <->
  42 * 2 ^ (- (-1)) <= 85 < (42 + 1) * 2 ^ (- (-1)).
Proof.
  apply (float_time_value_truncates
           [("TimeStamp", VFloat (S754_finite false 85 (-1)))] 85 (-1) 42).
  - lia.
  - reflexivity.
Defined.

(* ================================================================= *)
(** ** What is read from exiftool *)

(** [documents[0].values()] returns exactly on a list that starts with a
    dict. *)
Lemma first_document_values (documents : value) (streams : list value) :
  bind (getitem0 documents) values = ok streams <->
  exists d rest, documents = VList (VDict d :: rest) /\ streams = map snd d.
Proof.
  unfold bind, ok, raise. split.
  - destruct documents as [| b | n | fl | s | l | d]; simpl; try discriminate.
    + destruct s; discriminate.
    + destruct l as [|x rest]; [discriminate|]. simpl.
      destruct x; simpl; try discriminate. unfold ok.
      intros [= <-]. eauto.
  - intros (d & rest & -> & ->). reflexivity.
Qed.

(** X16: the streams the loop goes through are the values of the first
    element of exiftool's array, in their order, and nothing else:
    [read_streams] returns exactly when the decoded output is a list
    whose first element is a dict and [timestamp_seconds] has no more
    digits than [str] writes (line 136 formats it). Later elements are
    never looked at; an empty list, a dict or a string in place of the
    list raises. *)
Theorem read_streams_first_document
    (env : Env) (args : Namespace) (o : Video) (video : string) (w : World)
    (streams : list value) :
  fst (read_streams env args o video w) = ok streams <->
  (exists d rest,
     exiftool_json env video = ok (VList (VDict d :: rest)) /\
     streams = map snd d) /\
  Z.of_nat (decimal_digits (timestamp_seconds o)) <= int_max_str_digits.
Proof.
  assert (Hrun : fst (read_streams env args o video w) =
                 bind (exiftool_json env video)
                   (fun documents =>
                      bind (str_int (timestamp_seconds o))
                        (fun _ => bind (getitem0 documents) values))).
  { unfold read_streams, mbind, info, emit, lift, bind. simpl.
    destruct (exiftool_json env video) as [e|documents]; [reflexivity|]. simpl.
    destruct (str_int (timestamp_seconds o)) as [e|seconds]; [reflexivity|]. simpl.
    destruct (getitem0 documents); reflexivity. }
  rewrite Hrun. unfold bind at 1.
  destruct (exiftool_json env video) as [e|documents].
  { split; [discriminate|]. intros [(d & rest & H & _) _]. discriminate. }
  unfold bind at 1, str_int.
  destruct (Z.leb_spec (Z.of_nat (decimal_digits (timestamp_seconds o)))
              int_max_str_digits) as [Hle|Hgt].
  - unfold ok at 1. rewrite first_document_values. unfold ok. split.
    + intros (d & rest & -> & ->). split; [eauto | exact Hle].
    + intros [(d & rest & [= ->] & ->) _]. eauto.
  - unfold raise. split; [discriminate|]. intros [_ Hle]. lia.
Qed.

(* ================================================================= *)
(** ** The still image *)

(** The first piece of a split is what stands before the first
    separator. *)
Lemma split_first_piece (sep : ascii) (s : string) :
  exists stem pieces,
    split sep s = stem :: pieces /\ free_of sep stem /\
    ((pieces = [] /\ s = stem) \/ exists rest, s = stem ++ String sep rest).
Proof.
  induction s as [|c s IH].
  - exists "", []. simpl. auto.
  - simpl. destruct (Ascii.eqb_spec c sep) as [->|Hne].
    + exists "", (split sep s). simpl. split; [reflexivity|]. split; [exact I|].
      right. exists s. reflexivity.
    + destruct IH as (stem & pieces & -> & Hfree & Hs).
      exists (String c stem), pieces. split; [reflexivity|].
      split; [simpl; auto|].
      destruct Hs as [[-> ->] | [rest ->]]; [left; auto|].
      right. exists rest. reflexivity.
Qed.

(** What [extract_image] has done when it returns. *)
Lemma extract_image_inv (env : Env) (args : Namespace) (self : Video)
    (video name : string) (w w' : World) :
  extract_image env args self video w = (ok name, w') ->
  exists stem,
    getitem (split "." (self_video_file self)) 0 = ok stem /\
    name = stem ++ "." ++ str_of_int (timestamp_seconds self) ++ ".jpg" /\
    ffmpeg_succeeds env
      {| input := video; ss := timestamp_seconds self; t := None;
         output := name;
         output_options := [("vframes", "1"); ("qscale", "3")] |} = true /\
    In name (files w').
Proof.
  unfold extract_image. intros H.
  apply mbind_ok_inv in H. destruct H as (? & wa & _ & H).
  apply mbind_ok_inv in H. destruct H as (stem & wb & Hstem & H).
  unfold lift in Hstem. injection Hstem as Hstem _.
  apply mbind_ok_inv in H. destruct H as (seconds & wb' & Hsec & H).
  assert (Hseconds : seconds = str_of_int (timestamp_seconds self)).
  { unfold lift, str_int, ok, raise in Hsec.
    destruct (Z.of_nat (decimal_digits (timestamp_seconds self)) <=? int_max_str_digits);
      [|discriminate]. now injection Hsec as <- _. }
  subst seconds.
  apply mbind_ok_inv in H. destruct H as (? & wc & _ & H).
  apply mbind_ok_inv in H. destruct H as (? & wd & Hex & H).
  apply mbind_ok_inv in H. destruct H as (? & we & Hinfo & H).
  unfold ret, ok in H. injection H as <- <-.
  exists stem. split; [exact Hstem|]. split; [reflexivity|].
  unfold execute in Hex.
  destruct (ffmpeg_succeeds env _) eqn:Hok; [|discriminate].
  split; [reflexivity|].
  apply (f_equal snd) in Hex. simpl in Hex. subst wd.
  pose proof (keeps_file_emit
                (stem ++ "." ++ str_of_int (timestamp_seconds self) ++ ".jpg")
                args (INFO, "Image created as " ++ stem ++ "." ++
                            str_of_int (timestamp_seconds self) ++ ".jpg")) as Hk.
  unfold respects, keeps_file in Hk. unfold info in Hinfo.
  match type of Hinfo with emit _ _ ?w0 = _ =>
    specialize (Hk w0 (in_add_file _ (files wc))) end.
  rewrite Hinfo in Hk. exact Hk.
Qed.

(** X17: the still is named after what stands before the first dot of
    the video path, followed by a dot, the offset in seconds and [.jpg];
    the rest of the path, from its first dot on, is dropped. A path that
    starts with a dot, such as [./clips/GX010001.MP4], gives a name that
    starts with the dot. When [extract_image] returns, ffmpeg has made
    the file. *)
Theorem image_named_up_to_first_dot
    (env : Env) (args : Namespace) (self : Video)
    (video name : string) (w w' : World) :
  extract_image env args self video w = (ok name, w') ->
  exists stem,
    name = stem ++ "." ++ str_of_int (timestamp_seconds self) ++ ".jpg" /\
    free_of "." stem /\
    (self_video_file self = stem \/
     exists rest, self_video_file self = stem ++ "." ++ rest) /\
    In name (files w').
Proof.
  intros H. apply extract_image_inv in H.
  destruct H as (stem & Hstem & Hname & _ & Hin).
  exists stem. split; [exact Hname|].
  destruct (split_first_piece "." (self_video_file self))
    as (stem' & pieces & Hsp & Hfree & Hs).
  rewrite Hsp in Hstem. unfold getitem, ok in Hstem. simpl in Hstem.
  injection Hstem as <-.
  split; [exact Hfree|]. split; [|exact Hin].
  destruct Hs as [[_ ->] | [rest ->]]; [now left|]. right. now exists rest.
Qed.

Lemma image_named_up_to_first_dot_witness :
  exists stem,
    ".42.jpg" = stem ++ "." ++ str_of_int 42 ++ ".jpg" /\
    free_of "." stem /\
    ("./clips/GX010001.MP4" = stem \/
     exists rest, "./clips/GX010001.MP4" = stem ++ "." ++ rest) /\
    In ".42.jpg" [".42.jpg"].
Proof.
  apply (image_named_up_to_first_dot studio still_from_clip
           {| self_video_file := "./clips/GX010001.MP4";
              self_timestamp := "00:00:42";
              timestamp_seconds := 42 |}
           "./clips/GX010001.MP4" ".42.jpg" empty_world
           {| files := [".42.jpg"];
              log := [(INFO, "Extracting image from video ./clips/GX010001.MP4 at timestamp 00:00:42");
                      (INFO, "Image created as .42.jpg")];
              exif_writes := [] |}).
  vm_compute. reflexivity.
Defined.

(** X18: with [extract] set and no image given, the still is asked of
    ffmpeg from the one-second clip, not from the video, and at the
    offset [timestamp_seconds] the clip itself starts at in the video;
    the tags then go to that still. *)
Theorem still_taken_from_clip
    (env : Env) (args : Namespace) (w w1 : World) (s : Locals) :
  extract args = true ->
  truthy (image_file args) = false ->
  before_loop env args w = (ok s, w1) ->
  ffmpeg_succeeds env
    {| input := NamedTemporaryFile env ++ ".mp4";
       ss := timestamp_seconds (obj s);
       t := None;
       output := f s;
       output_options := [("vframes", "1"); ("qscale", "3")] |} = true /\
  ffmpeg_succeeds env
    {| input := video_file args;
       ss := timestamp_seconds (obj s);
       t := Some "1";
       output := NamedTemporaryFile env ++ ".mp4";
       output_options := [("c", "copy")] |} = true.
Proof.
  intros He Hi Hb.
  destruct (before_loop_clip _ _ _ _ _ He Hb) as (_ & Hv & _).
  destruct (before_loop_inv _ _ _ _ _ Hb)
    as (tv & w2 & w3 & Hinit & Htv & _ & _ & Him & _).
  split.
  - unfold choose_image in Him. rewrite Hi in Him.
    apply extract_image_inv in Him.
    destruct Him as (stem & _ & _ & Hok & _). now rewrite Hv in Hok.
  - unfold choose_video in Htv. rewrite He in Htv.
    apply mbind_ok_inv in Htv. destruct Htv as (r & wr & Hr & _).
    unfold extract_video in Hr.
    apply mbind_ok_inv in Hr. destruct Hr as (? & wa & _ & Hr).
    apply mbind_ok_inv in Hr. destruct Hr as (? & wb & _ & Hr).
    apply mbind_ok_inv in Hr. destruct Hr as (? & wc & _ & Hr).
    apply mbind_ok_inv in Hr. destruct Hr as (? & wd & Hex & _).
    unfold execute in Hex.
    destruct (ffmpeg_succeeds env _) eqn:Hok; [|discriminate].
    assert (Hvf : self_video_file (obj s) = video_file args).
    { apply Video_init_ok_iff in Hinit.
      destruct Hinit as (? & ? & ? & ? & ? & ? & ? & _ & _ & _ & _ & ->).
      reflexivity. }
    now rewrite Hvf in Hok.
Qed.

Lemma still_taken_from_clip_witness :
  ffmpeg_succeeds studio
    {| input := NamedTemporaryFile studio ++ ".mp4";
       ss := 42;
       t := None;
       output := ".42.jpg";
       output_options := [("vframes", "1"); ("qscale", "3")] |} = true /\
  ffmpeg_succeeds studio
    {| input := video_file still_from_clip;
       ss := 42;
       t := Some "1";
       output := NamedTemporaryFile studio ++ ".mp4";
       output_options := [("c", "copy")] |} = true.
Proof.
  apply (still_taken_from_clip studio still_from_clip empty_world
           {| files := [".42.jpg"; "/tmp/tmpk2v9x1.mp4"; "/tmp/tmpk2v9x1"];
              log := [(INFO, "Extracting 1 second of video from ./clips/GX010001.MP4 starting at 00:00:42");
                      (INFO, "Extracting image from video /tmp/tmpk2v9x1.mp4 at timestamp 00:00:42");
                      (INFO, "Image created as .42.jpg");
                      (INFO, "Extracting metadata from video file /tmp/tmpk2v9x1.mp4");
                      (INFO, "Searching the metadata for timestamp 42 (42)")];
              exif_writes := [] |}
           {| obj := {| self_video_file := "./clips/GX010001.MP4";
                        self_timestamp := "00:00:42";
                        timestamp_seconds := 42 |};
              temp_video_file := Some "/tmp/tmpk2v9x1";
              video := "/tmp/tmpk2v9x1.mp4";
              f := ".42.jpg";
              streams := [VStr "/tmp/tmpk2v9x1.mp4"; hero9] |}).
  - reflexivity.
  - reflexivity.
  - vm_compute. reflexivity.
Defined.

(* ================================================================= *)
(** ** Timestamps written in decimal *)

Lemma scan_digits_uint (d : Decimal.uint) (acc : Z) :
  scan_digits acc (NilEmpty.string_of_uint d) = Some (uint_value acc d, "").
Proof.
  revert acc. induction d; intros acc; simpl; try apply IHd. reflexivity.
Qed.

Lemma uint_value_of_uint_acc (d : Decimal.uint) (acc : positive) :
  Z.pos (Pos.of_uint_acc d acc) = uint_value (Z.pos acc) d.
Proof.
  revert acc. induction d; intros acc; cbn [Pos.of_uint_acc uint_value];
    try reflexivity; rewrite IHd; f_equal; lia.
Qed.

Lemma uint_value_of_uint (d : Decimal.uint) : uint_value 0 d = Z.of_uint d.
Proof.
  unfold Z.of_uint.
  induction d; simpl; try reflexivity; try exact IHd;
    rewrite <- uint_value_of_uint_acc; reflexivity.
Qed.

(** [int] reads back what [str] writes, within the limit on digits. *)
Lemma int_of_str_uint (d : Decimal.uint) (neg : bool) :
  Z.of_nat (count_digits ((if neg then "-" else "") ++ NilZero.string_of_uint d))
    <= int_max_str_digits ->
  int_of_str ((if neg then "-" else "") ++ NilZero.string_of_uint d) =
    ok (if neg then - uint_value 0 d else uint_value 0 d).
Proof.
  intros H. apply Z.leb_le in H.
  unfold int_of_str. rewrite H. clear H.
  destruct d; destruct neg; try reflexivity;
    simpl; rewrite scan_digits_uint; reflexivity.
Qed.

Lemma int_of_str_str_of_int (n : Z) :
  Z.of_nat (decimal_digits n) <= int_max_str_digits ->
  int_of_str (str_of_int n) = ok n.
Proof.
  unfold decimal_digits, str_of_int. rewrite <- (DecimalZ.of_to n) at 3.
  destruct (Z.to_int n) as [d|d]; simpl NilZero.string_of_int; intros H.
  - simpl Z.of_int. rewrite <- uint_value_of_uint. apply (int_of_str_uint d false H).
  - simpl Z.of_int. rewrite <- uint_value_of_uint. apply (int_of_str_uint d true H).
Qed.

Lemma free_of_string_of_uint (c : ascii) (d : Decimal.uint) :
  digit_of c = None -> free_of c (NilEmpty.string_of_uint d).
Proof.
  intros Hc. induction d; simpl; try exact I;
    (split; [intros <-; discriminate | assumption]).
Qed.

Lemma free_of_str_of_int (n : Z) : free_of ":" (str_of_int n).
Proof.
  unfold str_of_int.
  assert (H : forall d, free_of ":" (NilZero.string_of_uint d)).
  { intros d. destruct d; try (apply (free_of_string_of_uint ":"); reflexivity).
    simpl. split; [discriminate | exact I]. }
  destruct (Z.to_int n) as [d|d]; simpl; [apply H|].
  split; [discriminate | apply H].
Qed.

Lemma split_free (sep : ascii) (a : string) :
  free_of sep a -> split sep a = [a].
Proof.
  induction a as [|c a IH]; simpl; [reflexivity|]. intros [Hc Ha].
  destruct (Ascii.eqb_spec c sep); [contradiction|]. now rewrite IH.
Qed.

Lemma split_app (sep : ascii) (a b : string) :
  free_of sep a -> split sep (a ++ String sep b) = a :: split sep b.
Proof.
  induction a as [|c a IH]; simpl.
  - intros _. now rewrite Ascii.eqb_refl.
  - intros [Hc Ha]. destruct (Ascii.eqb_spec c sep); [contradiction|].
    now rewrite IH.
Qed.

(** X19: hours, minutes and seconds written in decimal and joined by
    colons are accepted as long as none of the three has more than
    [int_max_str_digits] (4300) digits, and give [h * 3600 + m * 60 + s];
    there is no bound on minutes or seconds besides (90 minutes are 5400
    seconds), and negative numbers are taken too. *)
Theorem Video_init_decimal (video_file : string) (h m s : Z) :
  Z.of_nat (decimal_digits h) <= int_max_str_digits ->
  Z.of_nat (decimal_digits m) <= int_max_str_digits ->
  Z.of_nat (decimal_digits s) <= int_max_str_digits ->
  exists v,
    Video_init video_file
      (str_of_int h ++ ":" ++ str_of_int m ++ ":" ++ str_of_int s) = ok v /\
    timestamp_seconds v = h * 3600 + m * 60 + s.
Proof.
  intros Hh Hm Hs. eexists. split.
  - apply Video_init_ok_iff.
    exists (str_of_int h), (str_of_int m), (str_of_int s), [], h, m, s.
    split.
    + change (str_of_int h ++ ":" ++ str_of_int m ++ ":" ++ str_of_int s)
        with (str_of_int h ++ String ":" (str_of_int m ++ String ":" (str_of_int s))).
      rewrite split_app by apply free_of_str_of_int.
      rewrite split_app by apply free_of_str_of_int.
      now rewrite split_free by apply free_of_str_of_int.
    + repeat split; now apply int_of_str_str_of_int.
  - simpl. lia.
Qed.

Lemma Video_init_decimal_witness :
  exists v,
    Video_init "GX010001.MP4" "1:90:-5" = ok v /\
    timestamp_seconds v = 8995.
Proof.
  apply (Video_init_decimal "GX010001.MP4" 1 90 (-5)); vm_compute; discriminate.
Defined.

(* ================================================================= *)
(** ** The options *)

(** X20: [--extract] is on for every text but the empty one: [-e False],
    [-e 0] and [-e no] all switch the extraction on, and only leaving
    the option out (or giving it the empty string) leaves it off. *)
Theorem extract_on_for_any_text (o : Options) (args : Namespace) :
  parse_args o = Some args ->
  (extract args = true <->
   exists text, opt_extract o = Some text /\ text <> "").
Proof.
  unfold parse_args. intros H.
  destruct (opt_video_file o); [|discriminate].
  destruct (opt_timestamp o); [|discriminate].
  destruct (match opt_loglevel o with
            | Some l => _
            | None => Some INFO
            end); [|discriminate].
  injection H as <-. simpl.
  destruct (opt_extract o) as [[|c text]|]; simpl.
  - split; [discriminate|]. intros (text & [= <-] & Hne). contradiction.
  - split; [|reflexivity]. intros _. eexists. split; [reflexivity|discriminate].
  - split; [discriminate|]. intros (text & H & _). discriminate.
Qed.

Lemma extract_on_for_any_text_witness :
  extract {| video_file := "GX010001.MP4"; image_file := None;
             timestamp := "00:00:42"; extract := true; loglevel := INFO |} = true <->
  exists text, opt_extract extract_false = Some text /\ text <> "".
Proof.
  apply (extract_on_for_any_text extract_false
           {| video_file := "GX010001.MP4"; image_file := None;
              timestamp := "00:00:42"; extract := true; loglevel := INFO |}).
  reflexivity.
Defined.

(* ================================================================= *)
(** ** The scan in either mode, and the run as a whole *)

(** X21: with [extract] set, when every stream before it is passed
    over, the first bundle whose [TimeStamp] reads as an integer is the
    one returned, whatever that integer and whatever the target. *)
Theorem select_any_first_readable
    (repr : value -> string) (target t : Z) (pre post : list value) (v : value) :
  Forall (skipped repr true target) pre ->
  time_value v = ok t ->
  exists d,
    data repr v = ok d /\
    select repr true target (pre ++ v :: post) = Found d.
Proof.
  intros Hpre Ht.
  assert (Hg : exists x, get v "TimeStamp" = ok x).
  { unfold time_value in Ht. destruct (get v "TimeStamp"); [discriminate|eauto]. }
  destruct Hg as [x Hg]. destruct (get_ok_dict _ _ _ Hg) as [dct ->].
  destruct (data_dict repr dct) as (lat & lon & alt & name & _ & _ & _ & _ & Hd).
  eexists. split; [exact Hd|].
  rewrite select_app_skipped by assumption. rewrite select_cons.
  pose proof (proj2 (accepted_iff repr true target (VDict dct) _)
                (ex_intro _ t (conj Ht (conj eq_refl Hd)))) as Hacc.
  unfold accepted in Hacc. now rewrite Hacc.
Qed.

Lemma select_any_first_readable_witness :
  exists d,
    data (fun _ => "") hero9 = ok d /\
    select (fun _ => "") true 7
      ([VStr "GX010001.MP4"; VDict [("DeviceName", VStr "Hero9")]]
       ++ hero9 :: [dated]) = Found d.
Proof.
  apply (select_any_first_readable (fun _ => "") 7 42
           [VStr "GX010001.MP4"; VDict [("DeviceName", VStr "Hero9")]]
           [dated] hero9).
  - repeat constructor.
  - reflexivity.
Defined.

Lemma found_data_length
    (repr : value -> string) (extract : bool) (target : Z)
    (vals : list value) (d : list string) :
  select repr extract target vals = Found d -> List.length d = 5%nat.
Proof.
  intros H.
  destruct (select_found_inv _ _ _ _ _ H) as (pre & v & post & -> & _ & Hacc).
  apply accepted_iff in Hacc. destruct Hacc as (t & Ht & _ & Hd).
  unfold time_value in Ht.
  destruct (get v "TimeStamp") as [e|x] eqn:Hg; [discriminate|].
  destruct (get_ok_dict _ _ _ Hg) as [dct ->].
  destruct (data_dict repr dct) as (lat & lon & alt & name & _ & _ & _ & _ & Hd').
  rewrite Hd' in Hd. injection Hd as <-. reflexivity.
Qed.

(** Whatever the scan's outcome, the calls the run makes after
    [before_loop] are a prefix of the list found, for the image [f]. *)
Lemma from_loop_calls (env : Env) (args : Namespace) (s : Locals) (w : World) :
  exists data,
    exif_writes (snd (from_loop env args s w)) =
      (exif_writes w ++ map (pair (f s)) data)%list /\
    (List.length data <= 5)%nat /\
    (fst (from_loop env args s w) = ok tt ->
     data = [] \/ List.length data = 5%nat).
Proof.
  rewrite from_loop_unfold.
  pose proof (emit_all_same_writes args (fst (scan env args s)) w) as Hl.
  destruct (snd (scan env args s)) as [found| |e] eqn:Hs.
  - destruct (after_loop_calls env args s (Some found)
                (snd (emit_all args (fst (scan env args s)) w)))
      as (k & Hk & Hc & Hok).
    pose proof (found_data_length _ _ _ _ _ Hs) as Hlen.
    rewrite Hlen in Hk, Hok. rewrite Hl in Hc.
    exists (firstn k found). split; [exact Hc|].
    rewrite length_firstn, Hlen. split; [lia|].
    intros H. right. rewrite (Hok H). reflexivity.
  - destruct (after_loop_calls env args s None
                (snd (emit_all args (fst (scan env args s)) w)))
      as (k & Hk & Hc & Hok).
    simpl in Hc. rewrite Hl, firstn_nil in Hc.
    exists []. split; [exact Hc|]. simpl. split; [lia|]. auto.
  - exists []. simpl. rewrite app_nil_r. split; [exact Hl|]. split; [lia|]. auto.
Qed.

(** X22: however a run ends, the writer has received at most five
    directives, all for one file; a run that returns normally has handed
    over none or all five; and when an image was given with [-i], the
    file is that image. *)
Theorem writer_gets_at_most_five (env : Env) (args : Namespace) (w : World) :
  exists file data,
    exif_writes (snd (main env args w)) =
      (exif_writes w ++ map (pair file) data)%list /\
    (List.length data <= 5)%nat /\
    (fst (main env args w) = ok tt -> data = [] \/ List.length data = 5%nat) /\
    (forall image, image_file args = Some image -> image <> "" ->
       data = [] \/ file = image).
Proof.
  unfold main, mbind.
  pose proof (before_loop_same_writes env args w) as Hw.
  destruct (before_loop env args w) as [[e|s] w1] eqn:Hb; simpl in Hw.
  { exists "", []. simpl. rewrite app_nil_r.
    split; [exact Hw|]. split; [lia|]. auto. }
  destruct (from_loop_calls env args s w1) as (data & Hc & Hlen & Hok).
  exists (f s), data. rewrite Hc, Hw.
  split; [reflexivity|]. split; [exact Hlen|]. split; [exact Hok|].
  intros image Hi Hne. right.
  destruct (before_loop_inv _ _ _ _ _ Hb)
    as (tv & w2 & w3 & _ & _ & _ & _ & Him & _).
  unfold choose_image in Him. rewrite Hi in Him.
  destruct image; [contradiction|]. simpl in Him.
  unfold ret, ok in Him. now injection Him as <- _.
Qed.

(* ================================================================= *)
(** ** Stream values of an unexpected shape *)

(** What one turn of the loop logs at level ERROR when it goes on. *)
Lemma loop_body_errors
    (repr : value -> string) (extract : bool) (target : Z) (v : value) :
  snd (loop_body repr extract target v) = Continue ->
  filter is_error (fst (loop_body repr extract target v)) =
    if is_anomaly v then [(ERROR, no_attribute v "get")] else [].
Proof.
  destruct (isinstance_str v) eqn:Hs.
  { destruct v; try discriminate. reflexivity. }
  destruct (get v "TimeStamp") as [e|x] eqn:Hg.
  { rewrite (loop_body_not_dict repr extract target _ _ Hs Hg).
    destruct v; try discriminate; try reflexivity.
    simpl in Hg. destruct (lookup "TimeStamp" d); discriminate. }
  destruct (get_ok_dict _ _ _ Hg) as [dct ->].
  destruct (int x) as [e|t] eqn:Hi.
  - rewrite (loop_body_no_int repr extract target _ _ _ Hs Hg Hi). reflexivity.
  - destruct (loop_body_int repr extract target _ _ _ Hs Hg Hi) as (d & _ & ->).
    reflexivity.
Qed.

(** X9: in a scan that ends without a match, the ERROR records of the
    log are, in order, one per stream value that is neither a string nor
    a dict (a number, a boolean, null or a list), each with the text of
    the [AttributeError] naming the value's type; such a value never
    ends the scan, and strings and dicts log nothing at that level. *)
Theorem anomalies_logged
    (repr : value -> string) (extract : bool) (target : Z) (vals : list value) :
  select repr extract target vals = NotFound ->
  filter is_error (fst (main_loop repr extract target vals)) =
    map (fun v => (ERROR, no_attribute v "get")) (filter is_anomaly vals).
Proof.
  induction vals as [|v vals IH]; [reflexivity|].
  rewrite select_cons. intros H.
  pose proof (loop_body_errors repr extract target v) as Hv.
  simpl main_loop.
  destruct (loop_body repr extract target v) as [l fl]. simpl in H, Hv.
  destruct fl; try discriminate.
  specialize (IH H). specialize (Hv eq_refl).
  destruct (main_loop repr extract target vals) as [l' o]. simpl in IH |- *.
  rewrite filter_app, Hv, IH.
  destruct (is_anomaly v); reflexivity.
Qed.

Lemma anomalies_logged_witness :
  filter is_error
    (fst (main_loop (fun _ => "") false 60
            [VStr "GX010001.MP4"; VInt 3; hero9; VNone; VList []])) =
    map (fun v => (ERROR, no_attribute v "get"))
      (filter is_anomaly [VStr "GX010001.MP4"; VInt 3; hero9; VNone; VList []]).
Proof.
  apply (anomalies_logged (fun _ => "") false 60
           [VStr "GX010001.MP4"; VInt 3; hero9; VNone; VList []]).
  reflexivity.
Defined.
